(** * 3DTilesDownloader: a shallow embedding of [download_3dtiles.py]

    The development follows the class [TilesDownloader]:
    - Python [str] values are Rocq strings (characters are 8-bit code points);
    - [os.path] is the POSIX flavour ([posixpath.join], [dirname], [basename]);
    - the instance attributes ([base_url], [output_dir], [downloaded_files]),
      the file system and a trace of observable events form the [World] that
      every method threads through;
    - what the program cannot decide itself (the HTTP server, the JSON parser
      of text files, whether the file system accepts a write) is an [Env] of
      oracles;
    - a Python call either returns, raises an [Exception], or (model only)
      exhausts the recursion fuel of the Walker/Fetcher mutual recursion.
    Console output ([print]) is not modelled: the statements are about a
    console that accepts every line, and about references that are strings
    of 8-bit characters. *)

From Stdlib Require Import String Ascii List.
From stdpp Require Import gmap strings list fin_maps.

Local Open Scope string_scope.
Import ListNotations.

(* ===================================================================== *)
(** ** Python string methods used by the downloader *)
(* ===================================================================== *)

Module PyStr.

Definition slash : ascii := "/"%char.

(** [s.startswith(p)] *)
Fixpoint startswith (s p : string) : bool :=
  match p with
  | EmptyString => true
  | String b p' =>
      match s with
      | EmptyString => false
      | String a s' => Ascii.eqb a b && startswith s' p'
      end
  end.

(** [s.endswith(suf)]: [suf] is [s] itself or ends the tail of [s]. *)
Fixpoint endswith (s suf : string) : bool :=
  String.eqb s suf ||
  match s with
  | EmptyString => false
  | String _ s' => endswith s' suf
  end.

(** [sub in s] for two strings. *)
Fixpoint contains (s sub : string) : bool :=
  startswith s sub ||
  match s with
  | EmptyString => false
  | String _ s' => contains s' sub
  end.

(** [s.split(c)] for a one-character separator. *)
Fixpoint split (c : ascii) (s : string) : list string :=
  match s with
  | EmptyString => [EmptyString]
  | String a s' =>
      let r := split c s' in
      if Ascii.eqb a c then EmptyString :: r
      else match r with
           | h :: t => String a h :: t
           | [] => [String a EmptyString]
           end
  end.

(** [s.rstrip(c)] for a one-character argument. *)
Fixpoint rstrip (c : ascii) (s : string) : string :=
  match s with
  | EmptyString => EmptyString
  | String a s' =>
      let r := rstrip c s' in
      if Ascii.eqb a c && String.eqb r EmptyString then EmptyString
      else String a r
  end.

(** [s == c * len(s)] *)
Fixpoint all_char (c : ascii) (s : string) : bool :=
  match s with
  | EmptyString => true
  | String a s' => Ascii.eqb a c && all_char c s'
  end.

(** The characters of [s], each as a one-character string (iteration
    over a [str]). *)
Fixpoint chars (s : string) : list string :=
  match s with
  | EmptyString => []
  | String a s' => String a EmptyString :: chars s'
  end.

(** Truthiness of a [str]. *)
Definition truthy (s : string) : bool := negb (String.eqb s EmptyString).

End PyStr.

(* ===================================================================== *)
(** ** [os.path] (posixpath) *)
(* ===================================================================== *)

Module OsPath.

(** [p[:i]] and [p[i:]] for [i = p.rfind('/') + 1]. *)
Fixpoint head (p : string) : string :=
  match p with
  | EmptyString => EmptyString
  | String a p' =>
      if PyStr.contains p' "/" then String a (head p')
      else if Ascii.eqb a PyStr.slash then "/" else EmptyString
  end.

Fixpoint basename (p : string) : string :=
  match p with
  | EmptyString => EmptyString
  | String a p' =>
      if PyStr.contains p' "/" then basename p'
      else if Ascii.eqb a PyStr.slash then p' else p
  end.

Definition dirname (p : string) : string :=
  let h := head p in
  if PyStr.truthy h && negb (PyStr.all_char PyStr.slash h)
  then PyStr.rstrip PyStr.slash h else h.

(** One step of the loop of [posixpath.join]. *)
Definition join2 (path b : string) : string :=
  if PyStr.startswith b "/" then b
  else if negb (PyStr.truthy path) || PyStr.endswith path "/" then path ++ b
  else path ++ "/" ++ b.

Definition join (a : string) (ps : list string) : string :=
  fold_left join2 ps a.

End OsPath.

(* ===================================================================== *)
(** ** Parsed JSON documents and [json.dump] *)
(* ===================================================================== *)

(** What [json.load] returns: [None], [bool], a number, [str], [list],
    [dict].  A number carries the text Python's encoder prints for it
    ([int.__repr__] / [float.__repr__]); a [dict] keeps its insertion
    order. *)
#[warnings="-register-all"] Inductive json : Type :=
| JNull
| JBool (b : bool)
| JNum (repr : string)
| JStr (s : string)
| JArr (items : list json)
| JObj (members : list (string * json)).

Module Json.

Definition dquote : ascii := "034"%char.
Definition backslash : ascii := "092"%char.

Definition hex_digit (n : nat) : ascii :=
  nth n (list_ascii_of_string "0123456789abcdef") "0"%char.

(** One character of [py_encode_basestring_ascii]. *)
Definition escape_char (a : ascii) : string :=
  let n := nat_of_ascii a in
  if Ascii.eqb a dquote then String backslash (String dquote EmptyString)
  else if Ascii.eqb a backslash then String backslash (String backslash EmptyString)
  else if (n =? 8)%nat then String backslash "b"
  else if (n =? 12)%nat then String backslash "f"
  else if (n =? 10)%nat then String backslash "n"
  else if (n =? 13)%nat then String backslash "r"
  else if (n =? 9)%nat then String backslash "t"
  else if (n <? 32)%nat || (126 <? n)%nat then
    String backslash
      ("u00" ++ String (hex_digit (n / 16)) (String (hex_digit (n mod 16)) EmptyString))
  else String a EmptyString.

Fixpoint escape (s : string) : string :=
  match s with
  | EmptyString => EmptyString
  | String a s' => escape_char a ++ escape s'
  end.

Definition dumps_str (s : string) : string :=
  String dquote (escape s ++ String dquote EmptyString).

(** [", ".join(parts)] *)
Fixpoint comma_join (parts : list string) : string :=
  match parts with
  | [] => EmptyString
  | [p] => p
  | p :: rest => p ++ ", " ++ comma_join rest
  end.

(** [json.dumps(v)] with the default arguments, as [json.dump] writes it. *)
Fixpoint dumps (v : json) : string :=
  match v with
  | JNull => "null"
  | JBool true => "true"
  | JBool false => "false"
  | JNum repr => repr
  | JStr s => dumps_str s
  | JArr items =>
      "[" ++ comma_join
               ((fix each (l : list json) : list string :=
                   match l with
                   | [] => []
                   | x :: l' => dumps x :: each l'
                   end) items) ++ "]"
  | JObj members =>
      "{" ++ comma_join
               ((fix each (l : list (string * json)) : list string :=
                   match l with
                   | [] => []
                   | (k, x) :: l' => (dumps_str k ++ ": " ++ dumps x) :: each l'
                   end) members) ++ "}"
  end.

(** Lookup in an insertion-ordered [dict]. *)
Fixpoint assoc (key : string) (members : list (string * json)) : option json :=
  match members with
  | [] => None
  | (k, v) :: rest => if String.eqb k key then Some v else assoc key rest
  end.

Definition is_str (key : string) (v : json) : bool :=
  match v with
  | JStr s => String.eqb s key
  | _ => false
  end.

(** [key in v] for a [str] key: [None] is the [TypeError] of a value that
    is not iterable. *)
Definition py_in (key : string) (v : json) : option bool :=
  match v with
  | JObj members => Some (bool_decide (is_Some (assoc key members)))
  | JArr items => Some (existsb (is_str key) items)
  | JStr s => Some (PyStr.contains s key)
  | JNull | JBool _ | JNum _ => None
  end.

(** [v[key]] for a [str] key: [None] is the [KeyError] / [TypeError]. *)
Definition py_getitem (v : json) (key : string) : option json :=
  match v with
  | JObj members => assoc key members
  | _ => None
  end.

(** [v.get(key, default)]: [None] is the [AttributeError] of a value
    that is not a [dict]. *)
Definition py_get (v : json) (key : string) (default : json) : option json :=
  match v with
  | JObj members =>
      Some (match assoc key members with Some x => x | None => default end)
  | _ => None
  end.

End Json.

(* ===================================================================== *)
(** ** The world of a run *)
(* ===================================================================== *)

(** Observable events, oldest first in a trace. *)
Inductive Event : Type :=
| EvGet (full_url : string)        (* requests.get(full_url, headers=self.headers) *)
| EvSleep                          (* time.sleep(1) *)
| EvWrite (save_path : string)     (* download_file wrote the response body *)
| EvCopy (output_tileset : string) (* process_tileset wrote the re-dumped root manifest *).

#[global] Instance Event_eq_dec : EqDecision Event.
Proof. solve_decision. Defined.

(** The attributes of a [TilesDownloader] instance ([output_dir] is unset
    until [process_tileset] assigns it), the file system as a map from path
    strings to file contents, and the trace. *)
Record World : Type := mkWorld {
  base_url : string;
  output_dir : option string;
  downloaded_files : gset string;
  fs : gmap string string;
  trace : list Event
}.

(** The fixed header set of [__init__]. *)
Definition headers : list (string * string) :=
  [("origin", "http://mars3d.cn");
   ("host", "data1.mars3d.cn");
   ("accept-encoding", "gzip, deflate");
   ("referer", "http://mars3d.cn/")].

(** What the program does not decide:
    - [http_get t hs u]: lines 47-48 for a GET of [u] issued after the
      events [t]: the body of the response when neither [requests.get] nor
      [response.raise_for_status()] raises, whatever its status is, and
      [None] when one of them raises a [requests.RequestException]
      ([requests.get] on a transport error, [raise_for_status] on a status
      from 400 to 599 and on no other: see [raise_for_status] below);
    - [json_load text]: the document [json.load] parses from a file with
      contents [text], or [None] when it raises;
    - [can_write files dir p]: whether creating the directory [dir] with
      its missing parents and then writing the file [p] succeeds in the
      file system [files]. *)
Record Env : Type := mkEnv {
  http_get : list Event -> list (string * string) -> string -> option string;
  json_load : string -> option json;
  can_write : gmap string string -> string -> string -> bool
}.

(** What [requests.get] meets on one GET: no response at all (a transport
    error: it raises a [requests.RequestException]), or a response, the
    last one when redirects were followed, with its status code and body. *)
Inductive Reply : Type :=
| NoReply
| Answer (status : nat) (body : string).

(** [response.raise_for_status()]: an [HTTPError] for a status from 400 to
    599; every other status, 2xx or not, passes and the body is used. *)
Definition raise_for_status (r : Reply) : option string :=
  match r with
  | NoReply => None
  | Answer status body =>
      if (400 <=? status)%nat && (status <? 600)%nat then None else Some body
  end.

(** The environment of a server given by its replies: [http_get] is
    [requests.get] followed by [raise_for_status]. *)
Definition served_by
  (reply : list Event -> list (string * string) -> string -> Reply)
  (parse : string -> option json)
  (writable : gmap string string -> string -> string -> bool) : Env :=
  {| http_get := fun t hs u => raise_for_status (reply t hs u);
     json_load := parse;
     can_write := writable |}.

(** [TilesDownloader(base_url)] *)
Definition init (url : string) (files : gmap string string) : World :=
  {| base_url := PyStr.rstrip PyStr.slash url;
     output_dir := None;
     downloaded_files := ∅;
     fs := files;
     trace := [] |}.

Definition log (e : Event) (w : World) : World :=
  {| base_url := base_url w;
     output_dir := output_dir w;
     downloaded_files := downloaded_files w;
     fs := fs w;
     trace := trace w ++ [e] |}.

Definition set_output_dir (d : string) (w : World) : World :=
  {| base_url := base_url w;
     output_dir := Some d;
     downloaded_files := downloaded_files w;
     fs := fs w;
     trace := trace w |}.

Definition put_file (p content : string) (w : World) : World :=
  {| base_url := base_url w;
     output_dir := output_dir w;
     downloaded_files := downloaded_files w;
     fs := <[p := content]> (fs w);
     trace := trace w |}.

Definition add_downloaded (p : string) (w : World) : World :=
  {| base_url := base_url w;
     output_dir := output_dir w;
     downloaded_files := {[p]} ∪ downloaded_files w;
     fs := fs w;
     trace := trace w |}.

(** The local paths [download_file] has written, oldest first. *)
Fixpoint fetch_writes (t : list Event) : list string :=
  match t with
  | [] => []
  | EvWrite p :: t' => p :: fetch_writes t'
  | _ :: t' => fetch_writes t'
  end.

(** The local paths written by either method, oldest first. *)
Fixpoint all_writes (t : list Event) : list string :=
  match t with
  | [] => []
  | EvWrite p :: t' => p :: all_writes t'
  | EvCopy p :: t' => p :: all_writes t'
  | _ :: t' => all_writes t'
  end.

(* ===================================================================== *)
(** ** Outcomes of a call *)
(* ===================================================================== *)

Inductive Outcome (A : Type) : Type :=
| Returned (a : A) (w : World)   (* normal return *)
| Raised (w : World)             (* an [Exception] propagates *)
| OutOfFuel (w : World)          (* model only: recursion budget exhausted *).

Arguments Returned {A} a w.
Arguments Raised {A} w.
Arguments OutOfFuel {A} w.

(** Methods are state transformers with exceptions. *)
Definition M (A : Type) : Type := World -> Outcome A.

#[global] Instance M_ret : MRet M := fun A a w => Returned a w.

#[global] Instance M_bind : MBind M := fun A B k m w =>
  match m w with
  | Returned a w' => k a w'
  | Raised w' => Raised w'
  | OutOfFuel w' => OutOfFuel w'
  end.

(** [raise] *)
Definition raise {A : Type} : M A := fun w => Raised w.

(** A value that may be the result of a raising expression. *)
Definition lift {A : Type} (o : option A) : M A :=
  match o with
  | Some a => mret a
  | None => raise
  end.

(** [try: body / except Exception: handler] *)
Definition try_except {A : Type} (body : M A) (handler : M A) : M A := fun w =>
  match body w with
  | Returned a w' => Returned a w'
  | Raised w' => handler w'
  | OutOfFuel w' => OutOfFuel w'
  end.

(** Model only: the recursion budget is exhausted. *)
Definition out_of_fuel {A : Type} : M A := fun w => OutOfFuel w.

(** A state update. *)
Definition modify (f : World -> World) : M unit := fun w => Returned tt (f w).

(** [for x in xs: body(x)] *)
Fixpoint for_each {X : Type} (body : X -> M unit) (xs : list X) : M unit :=
  match xs with
  | [] => mret tt
  | x :: rest => _ ← body x; for_each body rest
  end.

(* ===================================================================== *)
(** ** File system and network primitives *)
(* ===================================================================== *)

Section Primitives.
Variable env : Env.

(** [open(p).read()]: a missing file raises. *)
Definition read_file (p : string) : M string := fun w => lift (fs w !! p) w.

(** [os.makedirs(dir, exist_ok=True)] followed by [open(p, 'w')] and the
    write of [content], as one step that succeeds or raises;
    [os.makedirs('')] always raises. What a write that raises half-way
    leaves behind (directories made, a file created or truncated) is not
    modelled: after a refused write only the answer, the events and the
    download set are meaningful. *)
Definition write_file (ev : string -> Event) (dir p content : string) : M unit := fun w =>
  if PyStr.truthy dir && can_write env (fs w) dir p
  then Returned tt (log (ev p) (put_file p content w))
  else Raised w.

(** [self.output_dir]: an [AttributeError] until [process_tileset] has
    assigned it. *)
Definition get_output_dir : M string := fun w => lift (output_dir w) w.

(** [requests.get(full_url, headers=self.headers)] and [raise_for_status]. *)
Definition get (full_url : string) : M string := fun w =>
  lift (http_get env (trace w) headers full_url) (log (EvGet full_url) w).

(** The retry loop of [download_file], lines 44-54, over
    [retries = range(max_retries)]; leaving the loop without a response
    would leave [response] unbound. *)
Fixpoint retry_loop (max_retries : nat) (retries : list nat) (full_url : string) : M string :=
  match retries with
  | [] => raise
  | retry :: rest =>
      try_except (get full_url)
        (if (retry =? max_retries - 1)%nat then raise
         else _ ← modify (log EvSleep); retry_loop max_retries rest full_url)
  end.

End Primitives.

(** The URL construction of [download_file], lines 31-39. *)
Definition opt_truthy (o : option string) : bool :=
  match o with
  | Some s => PyStr.truthy s
  | None => false
  end.

Definition full_url (base url : string) (parent_folder : option string) : string :=
  if opt_truthy parent_folder then
    base ++ "/Data/" ++ default "" parent_folder ++ "/" ++ url
  else if PyStr.startswith url "Data/" then
    base ++ "/" ++ url
  else
    base ++ "/" ++ url.

(* ===================================================================== *)
(** ** The Tree Walker, over an arbitrary fetcher *)
(* ===================================================================== *)

Module Walker.
Section Walker.
Variable env : Env.
Variable fetch : string -> string -> option string -> M bool.

(** [url.split('/')[1] if '/' in url else parent_folder] *)
Definition tile_folder (url parent_folder : string) : option string :=
  if PyStr.contains url "/" then PyStr.split PyStr.slash url !! 1%nat
  else Some parent_folder.

(** Lines 97-105: the local destination of a content reference. *)
Definition local_path (url base_path parent_folder : string) : M string :=
  if PyStr.endswith url ".json" then
    tf ← lift (tile_folder url parent_folder);
    out ← get_output_dir;
    let folder_path := OsPath.join out ["Data"; tf] in
    mret (OsPath.join folder_path [OsPath.basename url])
  else
    mret (OsPath.join base_path [url]).

(** Lines 93-108: the content reference of one node. *)
Definition visit_content (node : json) (base_path parent_folder : string) : M unit :=
  has_content ← lift (Json.py_in "content" node);
  if (has_content : bool) then
    content ← lift (Json.py_getitem node "content");
    has_url ← lift (Json.py_in "url" content);
    if (has_url : bool) then
      u ← lift (Json.py_getitem content "url");
      match u with
      | JStr url =>
          lp ← local_path url base_path parent_folder;
          _ ← fetch url lp (Some parent_folder);
          mret tt
      | _ => raise
      end
    else mret tt
  else mret tt.

(** The whole method on a node that is a [str] (a key of a [dict] or a
    character of a [str] met while iterating over ['children']): indexing
    a [str] with a [str] raises. *)
Definition visit_str (s : string) (base_path parent_folder : string) : M unit :=
  _ ← visit_content (JStr s) base_path parent_folder;
  if PyStr.contains s "children" then raise else mret tt.

Fixpoint extract_urls_from_node (node : json) (base_path parent_folder : string)
  {struct node} : M unit :=
  _ ← visit_content node base_path parent_folder;
  has_children ← lift (Json.py_in "children" node);
  if (has_children : bool) then
    match node with
    | JObj members =>
        (fix find (ms : list (string * json)) : M unit :=
           match ms with
           | [] => raise
           | (k, v) :: ms' =>
               if String.eqb k "children" then
                 match v with
                 | JArr items =>
                     (fix loop (l : list json) : M unit :=
                        match l with
                        | [] => mret tt
                        | child :: l' =>
                            _ ← extract_urls_from_node child base_path parent_folder;
                            loop l'
                        end) items
                 | JObj kvs =>
                     for_each (fun key => visit_str key base_path parent_folder)
                       (map fst kvs)
                 | JStr s =>
                     for_each (fun c => visit_str c base_path parent_folder)
                       (PyStr.chars s)
                 | JNull | JBool _ | JNum _ => raise
                 end
               else find ms'
           end) members
    | _ => raise
    end
  else mret tt.

(** Lines 111-113 in terms of the whole method: the loop over
    [node['children']]. *)
Definition children_of (node : json) : option (list json) :=
  match Json.py_getitem node "children" with
  | Some (JArr items) => Some items
  | Some (JObj kvs) => Some (map (fun kv => JStr (fst kv)) kvs)
  | Some (JStr s) => Some (map JStr (PyStr.chars s))
  | _ => None
  end.

Definition visit_children (node : json) (base_path parent_folder : string) : M unit :=
  has_children ← lift (Json.py_in "children" node);
  if (has_children : bool) then
    children ← lift (children_of node);
    for_each (fun child => extract_urls_from_node child base_path parent_folder) children
  else mret tt.

(** Lines 76-89. *)
Definition process_json_file (json_path : string) : M unit :=
  try_except
    (text ← read_file json_path;
     data ← lift (json_load env text);
     let parent_folder := OsPath.basename (OsPath.dirname json_path) in
     root ← lift (Json.py_get data "root" (JObj []));
     extract_urls_from_node root (OsPath.dirname json_path) parent_folder)
    (mret tt).

(** Lines 115-134. *)
Definition process_tileset (tileset_path base_path : string) : M unit :=
  _ ← modify (set_output_dir base_path);
  try_except
    (text ← read_file tileset_path;
     data ← lift (json_load env text);
     let output_tileset := OsPath.join base_path ["tileset.json"] in
     _ ← write_file env EvCopy base_path output_tileset (Json.dumps data);
     root ← lift (Json.py_get data "root" (JObj []));
     extract_urls_from_node root base_path "")
    (mret tt).

End Walker.
End Walker.

(* ===================================================================== *)
(** ** The Fetcher, and the methods with the recursion closed *)
(* ===================================================================== *)

(** Lines 18-74, with [self.process_json_file] as [process]. *)
Definition download_file_with (env : Env) (process : string -> M unit)
  (url save_path : string) (parent_folder : option string) : M bool := fun w =>
  if bool_decide (save_path ∈ downloaded_files w) then Returned true w
  else
    try_except
      (response ← retry_loop env 3 (seq 0 3) (full_url (base_url w) url parent_folder);
       _ ← write_file env EvWrite (OsPath.dirname save_path) save_path response;
       _ ← modify (add_downloaded save_path);
       _ ← (if PyStr.endswith url ".json" then process save_path else mret tt);
       mret true)
      (mret false) w.

(** [fuel] bounds the depth of nested manifests: it is spent only where
    [download_file] hands a fetched manifest back to [process_json_file]. *)
Fixpoint download_file (env : Env) (fuel : nat) {struct fuel}
  : string -> string -> option string -> M bool :=
  download_file_with env
    (match fuel with
     | O => fun _ => out_of_fuel
     | S fuel' => Walker.process_json_file env (download_file env fuel')
     end).

Definition process_json_file (env : Env) (fuel : nat) : string -> M unit :=
  Walker.process_json_file env (download_file env fuel).

Definition extract_urls_from_node (env : Env) (fuel : nat) : json -> string -> string -> M unit :=
  Walker.extract_urls_from_node (download_file env fuel).

Definition process_tileset (env : Env) (fuel : nat) : string -> string -> M unit :=
  Walker.process_tileset env (download_file env fuel).

(** [main], lines 136-155, on a file system [files]: the base URL, the
    output directory and the path of the root manifest are constants. *)
Definition main (env : Env) (fuel : nat) (files : gmap string string) : Outcome unit :=
  process_tileset env fuel "tileset.json" "downloaded_tiles"
    (init "http://data1.mars3d.cn/3dtiles/qx-simiao" files).

(* ===================================================================== *)
(** ** Vocabulary of the statements *)
(* ===================================================================== *)

(** The world in which a call ends, however it ends. *)
Definition final {A : Type} (o : Outcome A) : World :=
  match o with
  | Returned _ w => w
  | Raised w => w
  | OutOfFuel w => w
  end.

(** [Q] holds of the world in which the call ends. *)
Definition post {A : Type} (Q : World -> Prop) (o : Outcome A) : Prop := Q (final o).

(** The call does not let an exception escape. *)
Definition no_raise {A : Type} (o : Outcome A) : Prop :=
  match o with
  | Raised _ => False
  | _ => True
  end.

(** The call ends in a world that satisfies [I]; when [strict], it ends by
    returning or raising, not for want of fuel. *)
Definition ends {A : Type} (strict : bool) (I : World -> Prop) (o : Outcome A) : Prop :=
  match o with
  | OutOfFuel w => if strict then False else I w
  | Returned _ w => I w
  | Raised w => I w
  end.

(** The call ends by returning or raising, in a world that satisfies [I]. *)
Definition settled {A : Type} (I : World -> Prop) (o : Outcome A) : Prop :=
  ends true I o.

(** Only the trace differs between the two worlds, and by no write. *)
Definition same_store (w w' : World) : Prop :=
  base_url w' = base_url w /\ output_dir w' = output_dir w /\
  downloaded_files w' = downloaded_files w /\ fs w' = fs w /\
  fetch_writes (trace w') = fetch_writes (trace w) /\
  all_writes (trace w') = all_writes (trace w).

(** The trace of [w'] continues the trace of [w]. *)
Definition extends (w w' : World) : Prop :=
  exists later, trace w' = (trace w ++ later)%list.

(** Every path [download_file] has written was written once and is in the
    download set. *)
Definition written_once (w : World) : Prop :=
  NoDup (fetch_writes (trace w)) /\
  forall p, p ∈ fetch_writes (trace w) -> p ∈ downloaded_files w.


(** A step keeps [written_once] and never removes a path from the set. *)
Definition keeps_written_once (w w' : World) : Prop :=
  (written_once w -> written_once w') /\ downloaded_files w ⊆ downloaded_files w'.

(** The world once [response] has been written to [sp] and [sp] recorded
    (lines 57-63). *)
Definition stored (sp response : string) (w : World) : World :=
  add_downloaded sp (log (EvWrite sp) (put_file sp response w)).

(** The world after three failed attempts: three requests, two pauses. *)
Definition failed_attempts (u : string) (w : World) : World :=
  log (EvGet u) (log EvSleep (log (EvGet u) (log EvSleep (log (EvGet u) w)))).

(** The server fails the three requests for [u] that start in [w]. *)
Definition all_attempts_fail (env : Env) (u : string) (w : World) : Prop :=
  http_get env (trace w) headers u = None /\
  http_get env (trace (log EvSleep (log (EvGet u) w))) headers u = None /\
  http_get env
    (trace (log EvSleep (log (EvGet u) (log EvSleep (log (EvGet u) w))))) headers u = None.

(** From [w] on the server fails every request. *)
Definition server_down (env : Env) (w : World) : Prop :=
  forall later u, http_get env (trace w ++ later)%list headers u = None.

(** The world in which the walk of the root manifest starts: the output
    directory is set and the re-dumped manifest is in place. *)
Definition root_copied (bp : string) (data : json) (w : World) : World :=
  log (EvCopy (OsPath.join bp ["tileset.json"]))
    (put_file (OsPath.join bp ["tileset.json"]) (Json.dumps data) (set_output_dir bp w)).

(** A run to evaluate the methods on: the configuration of [main], a
    small tileset and a server for it. *)
Module Scenario.

(** The root manifest: a nested manifest, a payload the server does not
    have, and the nested manifest once more. *)
Definition root_doc : json :=
  JObj [("root",
         JObj [("content", JObj [("url", JStr "Data/Tile_1/Tile_1.json")]);
               ("children",
                JArr [JObj [("content", JObj [("url", JStr "top.b3dm")])];
                      JObj [("content", JObj [("url", JStr "Data/Tile_1/Tile_1.json")])]])])].

Definition tile_doc : json :=
  JObj [("root", JObj [("content", JObj [("url", JStr "foo.b3dm")])])].

Definition base : string := "http://data1.mars3d.cn/3dtiles/qx-simiao".

(** The server has the nested manifest, its payload and a file that is not
    JSON; every other request fails. *)
Definition server (t : list Event) (hs : list (string * string)) (u : string)
  : option string :=
  if String.eqb u (base ++ "/Data/Tile_1/Tile_1.json") then Some (Json.dumps tile_doc)
  else if String.eqb u (base ++ "/Data/Tile_1/foo.b3dm") then Some "b3dm-bytes"
  else if String.eqb u (base ++ "/Data/bad/bad.json") then Some "<html>"
  else None.

Definition parse (text : string) : option json :=
  if String.eqb text (Json.dumps root_doc) then Some root_doc
  else if String.eqb text (Json.dumps tile_doc) then Some tile_doc
  else None.

Definition env : Env :=
  {| http_get := server; json_load := parse; can_write := fun _ _ _ => true |}.

(** [main]: the downloader for [base], the root manifest on disk. *)
Definition start : World :=
  init (base ++ "/") {[ "tileset.json" := Json.dumps root_doc ]}.

(** The same downloader once [process_tileset] has set the output
    directory. *)
Definition started : World := set_output_dir "downloaded_tiles" start.

End Scenario.

(** A root manifest written without the space that [json.dump] puts
    after a colon. *)
Module Compact.

Definition q : string := String Json.dquote EmptyString.

(** The eleven bytes of an object with an empty root. *)
Definition text : string := "{" ++ q ++ "root" ++ q ++ ":{}}".

Definition doc : json := JObj [("root", JObj [])].

Definition env : Env :=
  {| http_get := fun _ _ _ => None;
     json_load := fun s => if String.eqb s text then Some doc else None;
     can_write := fun _ _ _ => true |}.

Definition start : World :=
  init "http://data1.mars3d.cn/3dtiles/qx-simiao" {[ "tileset.json" := text ]}.

End Compact.

(** Rule A in the words of the specification: the tile folder is "the
    first path segment after splitting the reference on [/]" (the parent
    folder when there is no [/]), the destination
    [outputRoot/Data/tileFolder/basename]. *)
Definition spec_tile_folder (url parent_folder : string) : string :=
  if PyStr.contains url "/" then hd "" (PyStr.split PyStr.slash url)
  else parent_folder.

Definition spec_rule_A (out url parent_folder : string) : string :=
  out ++ "/Data/" ++ spec_tile_folder url parent_folder ++ "/" ++ OsPath.basename url.

Definition C1_as_stated : Prop :=
  forall url base_path parent_folder out w,
    PyStr.endswith url ".json" = true ->
    output_dir w = Some out ->
    Walker.local_path url base_path parent_folder w
    = Returned (spec_rule_A out url parent_folder) w.

(** Rule B in the words of the specification: the destination is
    [basePath/<reference>], whether [basePath] brings the separator or
    not. *)
Definition C7_as_stated : Prop :=
  forall url base_path parent_folder w,
    PyStr.endswith url ".json" = false ->
    Walker.local_path url base_path parent_folder w = Returned (base_path ++ "/" ++ url) w
    \/ Walker.local_path url base_path parent_folder w = Returned (base_path ++ url) w.

(** The claim in its own words: what lies at [outputRoot/tileset.json]
    after [process_tileset] is the input file, byte for byte. *)
Definition C4_as_stated : Prop :=
  forall env fuel tileset_path base_path w text data,
    fs w !! tileset_path = Some text ->
    json_load env text = Some data ->
    PyStr.truthy base_path &&
      can_write env (fs w) base_path (OsPath.join base_path ["tileset.json"]) = true ->
    fs (final (process_tileset env fuel tileset_path base_path w))
      !! OsPath.join base_path ["tileset.json"] = Some text.

(** Induction on documents, through the lists of a [list] and a [dict]. *)
Section JsonInd.
Variable P : json -> Prop.
Hypothesis HNull : P JNull.
Hypothesis HBool : forall b, P (JBool b).
Hypothesis HNum : forall r, P (JNum r).
Hypothesis HStr : forall s, P (JStr s).
Hypothesis HArr : forall items, Forall P items -> P (JArr items).
Hypothesis HObj : forall members, Forall (fun kv => P (snd kv)) members -> P (JObj members).

Fixpoint json_ind' (v : json) : P v :=
  match v with
  | JNull => HNull
  | JBool b => HBool b
  | JNum r => HNum r
  | JStr s => HStr s
  | JArr items =>
      HArr items
        ((fix all (l : list json) : Forall P l :=
            match l with
            | [] => List.Forall_nil _
            | x :: l' => List.Forall_cons _ _ _ (json_ind' x) (all l')
            end) items)
  | JObj members =>
      HObj members
        ((fix all (l : list (string * json)) : Forall (fun kv => P (snd kv)) l :=
            match l with
            | [] => List.Forall_nil _
            | kv :: l' => List.Forall_cons _ _ _ (json_ind' (snd kv)) (all l')
            end) members)
  end.
End JsonInd.

(** The events of [n] attempts at [u]: a request each, a pause between
    two of them. *)
Fixpoint attempts (u : string) (n : nat) : list Event :=
  match n with
  | O => []
  | S O => [EvGet u]
  | S n' => EvGet u :: EvSleep :: attempts u n'
  end.

(** The URLs requested, oldest first. *)
Fixpoint requested (t : list Event) : list string :=
  match t with
  | [] => []
  | EvGet u :: t' => u :: requested t'
  | _ :: t' => requested t'
  end.

(** The downloader has base [b] and has requested URLs under [b/] only. *)
Definition requests_under (b : string) (w : World) : Prop :=
  base_url w = b /\
  Forall (fun u => PyStr.startswith u (b ++ "/") = true) (requested (trace w)).

(** The later world has the download set of the earlier one, or more, and
    the files recorded in it as they were. *)
Definition keeps_files (w w' : World) : Prop :=
  downloaded_files w ⊆ downloaded_files w' /\
  forall p, p ∈ downloaded_files w -> fs w' !! p = fs w !! p.

(** Lines 94-108 for one reference: resolve the destination, fetch. *)
Definition fetch_reference (fetch : string -> string -> option string -> M bool)
  (base_path parent_folder url : string) : M unit :=
  lp ← Walker.local_path url base_path parent_folder;
  _ ← fetch url lp (Some parent_folder);
  mret tt.

(** The reference of a tile: none when the node has no [content] or the
    content no [url]; defined when the node is an object, its content an
    object and the [url] a string. *)
Definition node_reference (node : json) : option (list string) :=
  match node with
  | JObj members =>
      match Json.assoc "content" members with
      | None => Some []
      | Some (JObj content) =>
          match Json.assoc "url" content with
          | None => Some []
          | Some (JStr url) => Some [url]
          | Some _ => None
          end
      | Some _ => None
      end
  | _ => None
  end.

(** The children of a tile: none without [children]; defined when
    [children] is a list. *)
Definition node_children (node : json) : option (list json) :=
  match node with
  | JObj members =>
      match Json.assoc "children" members with
      | None => Some []
      | Some (JArr items) => Some items
      | Some _ => None
      end
  | _ => None
  end.

(** [tile_refs node refs]: [node] is a tree of tiles and [refs] are its
    references in pre-order, the reference of a tile before those of its
    children, the children in their order. *)
#[warnings="-register-all"] Inductive tile_refs : json -> list string -> Prop :=
| tile_refs_node (node : json) (own : list string) (children : list json)
    (below : list (list string)) :
    node_reference node = Some own ->
    node_children node = Some children ->
    Forall2 tile_refs children below ->
    tile_refs node (own ++ concat below)%list.

(** The root tile of the scenario and its two children. *)
Definition scenario_children : list json :=
  [JObj [("content", JObj [("url", JStr "top.b3dm")])];
   JObj [("content", JObj [("url", JStr "Data/Tile_1/Tile_1.json")])]].

Definition scenario_root : json :=
  JObj [("content", JObj [("url", JStr "Data/Tile_1/Tile_1.json")]);
        ("children", JArr scenario_children)].

(** The reference [url] resolves, under [base_path] and [parent_folder],
    to a local path that is in the download set of [w]. *)
Definition recorded_reference (base_path parent_folder : string) (w : World)
  (url : string) : Prop :=
  exists lp,
    Walker.local_path url base_path parent_folder w = Returned lp w /\
    lp ∈ downloaded_files w.

(** A server whose only manifest refers to itself. *)
Module Loop.

Definition doc : json :=
  JObj [("root", JObj [("content", JObj [("url", JStr "Data/Loop/Loop.json")])])].

Definition env : Env :=
  {| http_get := fun _ _ _ => Some (Json.dumps doc);
     json_load := fun s => if String.eqb s (Json.dumps doc) then Some doc else None;
     can_write := fun _ _ _ => true |}.

End Loop.

(** The two worlds have the same base URL and output directory. *)
Definition same_config (w w' : World) : Prop :=
  base_url w' = base_url w /\ output_dir w' = output_dir w.

(** The replies of the server to the three attempts at [u] that start in
    [w]; the second and the third attempt are made only when the ones
    before them raised. *)
Definition attempt_replies
  (reply : list Event -> list (string * string) -> string -> Reply)
  (u : string) (w : World) : list Reply :=
  [reply (trace w) headers u;
   reply (trace (log EvSleep (log (EvGet u) w))) headers u;
   reply (trace (log EvSleep (log (EvGet u) (log EvSleep (log (EvGet u) w)))))
     headers u].

(** A failed GET in the words of the specification: a transport error or
    a status that is not 2xx. *)
Definition spec_failure (r : Reply) : Prop :=
  r = NoReply \/
  exists status body, r = Answer status body /\ ~ (200 <= status < 300)%nat.

(** A failed GET for the code: a transport error or a status from 400 to
    599, the statuses on which [raise_for_status] raises. *)
Definition refused (r : Reply) : Prop :=
  r = NoReply \/
  exists status body, r = Answer status body /\ (400 <= status < 600)%nat.

(** The claim in its own words: when the three attempts fail in the sense
    of the specification, the fetch returns [False], no file is written
    and the download set is as before. *)
Definition C3_as_stated : Prop :=
  forall reply parse writable fuel url sp pf w,
    sp ∉ downloaded_files w ->
    Forall spec_failure (attempt_replies reply (full_url (base_url w) url pf) w) ->
    exists w',
      download_file (served_by reply parse writable) fuel url sp pf w = Returned false w'
      /\ fs w' = fs w /\ downloaded_files w' = downloaded_files w.

(** A server that answers every GET with status 304 and an empty body. *)
Module NotModified.

Definition reply (t : list Event) (hs : list (string * string)) (u : string) : Reply :=
  Answer 304 "".

Definition env : Env := served_by reply (fun _ => None) (fun _ _ _ => true).

End NotModified.

(** The server of the scenario with its status codes: 200 for what it
    has, 404 for the rest. *)
Module Statuses.

Definition reply (t : list Event) (hs : list (string * string)) (u : string) : Reply :=
  match Scenario.server t hs u with
  | Some body => Answer 200 body
  | None => Answer 404 "Not Found"
  end.

Definition env : Env := served_by reply Scenario.parse (fun _ _ _ => true).

End Statuses.

(** A nested manifest of the scenario whose only reference begins with
    [/], on disk where Rule A puts it, and a server that has every file. *)
Module Absolute.

Definition doc : json :=
  JObj [("root", JObj [("content", JObj [("url", JStr "/foo.b3dm")])])].

Definition manifest : string := "downloaded_tiles/Data/Tile_1/Tile_1.json".

Definition env : Env :=
  {| http_get := fun _ _ _ => Some "b3dm-bytes";
     json_load := fun s => if String.eqb s (Json.dumps doc) then Some doc else None;
     can_write := fun _ _ _ => true |}.

Definition start : World := put_file manifest (Json.dumps doc) Scenario.started.

End Absolute.

(** The scenario once its nested manifest lies where Rule A puts it. *)
Definition scenario_nested : World :=
  put_file "downloaded_tiles/Data/Tile_1/Tile_1.json" (Json.dumps Scenario.tile_doc)
    Scenario.started.

(* ===================================================================== *)
(** ** The string and path functions on examples *)
(* ===================================================================== *)

Example split_ex : PyStr.split "/" "a/Tile_7/sub.json" = ["a"; "Tile_7"; "sub.json"].
Proof. reflexivity. Qed.

Example dirname_ex : OsPath.dirname "out/Data/Tile_7/sub.json" = "out/Data/Tile_7".
Proof. reflexivity. Qed.

Example basename_ex : OsPath.basename "out/Data/Tile_7/sub.json" = "sub.json".
Proof. reflexivity. Qed.

Example join_ex : OsPath.join "out" ["Data"; "Tile_7"] = "out/Data/Tile_7".
Proof. reflexivity. Qed.

Example join_abs_ex : OsPath.join "out" ["/foo.b3dm"] = "/foo.b3dm".
Proof. reflexivity. Qed.

(* ===================================================================== *)
(** ** Reasoning about outcomes *)
(* ===================================================================== *)

Ltac unfold_monad :=
  unfold lift, try_except, modify, out_of_fuel, raise in *;
  unfold mbind, mret in *; unfold M_bind, M_ret in *.

Section PostRules.
Context {R : World -> World -> Prop} `{!PreOrder R}.

Lemma post_lift {A} (o : option A) w : post (R w) (lift o w).
Proof. destruct o; unfold post; simpl; reflexivity. Qed.

Lemma post_ret {A} (a : A) w : post (R w) ((mret a : M A) w).
Proof. unfold post; simpl; reflexivity. Qed.

Lemma post_bind_from {A B} (m : M A) (k : A -> M B) w0 w :
  post (R w0) (m w) ->
  (forall a w1, m w = Returned a w1 -> post (R w1) (k a w1)) ->
  post (R w0) ((m ≫= k) w).
Proof.
  intros Hm Hk. unfold mbind, M_bind, post in *.
  destruct (m w) as [a w1|w1|w1] eqn:E; simpl in *; [| exact Hm | exact Hm].
  specialize (Hk a w1 eq_refl). etransitivity; eassumption.
Qed.

Lemma post_bind {A B} (m : M A) (k : A -> M B) w :
  post (R w) (m w) ->
  (forall a w1, m w = Returned a w1 -> post (R w1) (k a w1)) ->
  post (R w) ((m ≫= k) w).
Proof. apply post_bind_from. Qed.

Lemma post_try_from {A} (body handler : M A) w0 w :
  post (R w0) (body w) ->
  (forall w1, body w = Raised w1 -> post (R w1) (handler w1)) ->
  post (R w0) (try_except body handler w).
Proof.
  intros Hb Hh. unfold try_except, post in *.
  destruct (body w) as [a w1|w1|w1] eqn:E; simpl in *; [exact Hb | | exact Hb].
  specialize (Hh w1 eq_refl). etransitivity; eassumption.
Qed.

Lemma post_try {A} (body handler : M A) w :
  post (R w) (body w) ->
  (forall w1, body w = Raised w1 -> post (R w1) (handler w1)) ->
  post (R w) (try_except body handler w).
Proof. apply post_try_from. Qed.

Lemma post_weaken {A} (o : Outcome A) w w0 :
  R w0 w -> post (R w) o -> post (R w0) o.
Proof. unfold post. intros; etransitivity; eassumption. Qed.

Lemma post_for_each {X} (body : X -> M unit) (xs : list X) w :
  Forall (fun x => forall w1, post (R w1) (body x w1)) xs ->
  post (R w) (for_each body xs w).
Proof.
  intros H. revert w. induction H as [|x xs Hx _ IH]; intros w; simpl.
  - apply post_ret.
  - apply post_bind; [apply Hx | intros _ w1 _; apply IH].
Qed.

End PostRules.

(* ===================================================================== *)
(** ** The Walker: the method in terms of its two halves *)
(* ===================================================================== *)

Section WalkerFacts.
Variable fetch : string -> string -> option string -> M bool.

Lemma bind_ext {A B} (m : M A) (k1 k2 : A -> M B) w :
  (forall a w1, k1 a w1 = k2 a w1) -> (m ≫= k1) w = (m ≫= k2) w.
Proof.
  intros H. unfold mbind, M_bind. destruct (m w); auto.
Qed.

Lemma for_each_ext {X} (f g : X -> M unit) xs w :
  (forall x w1, f x w1 = g x w1) -> for_each f xs w = for_each g xs w.
Proof.
  intros H. revert w. induction xs as [|x xs IH]; intros w; simpl; [reflexivity|].
  unfold mbind, M_bind. rewrite H. destruct (g x w); auto.
Qed.

Lemma for_each_map {X Y} (h : X -> Y) (f : Y -> M unit) xs w :
  for_each f (map h xs) w = for_each (fun x => f (h x)) xs w.
Proof.
  revert w. induction xs as [|x xs IH]; intros w; simpl; [reflexivity|].
  apply bind_ext. intros _ w1. apply IH.
Qed.

(** On a [str] the method is [visit_str]. *)
Lemma extract_urls_from_node_str s bp pf w :
  Walker.extract_urls_from_node fetch (JStr s) bp pf w = Walker.visit_str fetch s bp pf w.
Proof.
  unfold Walker.visit_str. simpl. apply bind_ext. intros _ w1.
  unfold_monad. destruct (PyStr.contains s "children"); reflexivity.
Qed.

(** Lines 93-113: the content reference, then the children. *)
Lemma extract_urls_from_node_eq node bp pf w :
  Walker.extract_urls_from_node fetch node bp pf w =
  (_ ← Walker.visit_content fetch node bp pf; Walker.visit_children fetch node bp pf) w.
Proof.
  destruct node as [| b | r | s | items | members]; simpl;
    apply bind_ext; intros _ w1; unfold Walker.visit_children.
  - reflexivity.
  - reflexivity.
  - reflexivity.
  - simpl. unfold_monad. destruct (PyStr.contains s "children"); reflexivity.
  - simpl. unfold_monad. destruct (existsb _ items); reflexivity.
  - apply bind_ext. intros has w2. destruct has; [|reflexivity].
    unfold Walker.children_of. simpl. clear.
    induction members as [|[k v] ms IH]; simpl; [reflexivity|].
    destruct (String.eqb k "children"); [clear IH|exact IH].
    destruct v as [| b | r | s | items | kvs]; try reflexivity.
    + change (for_each (fun c => Walker.visit_str fetch c bp pf) (PyStr.chars s) w2 =
              for_each (fun c => Walker.extract_urls_from_node fetch c bp pf)
                (map JStr (PyStr.chars s)) w2).
      rewrite for_each_map.
      apply for_each_ext. intros x w. symmetry. apply extract_urls_from_node_str.
    + change ((fix loop (l : list json) : M unit :=
                 match l with
                 | [] => mret tt
                 | child :: l' =>
                     _ ← Walker.extract_urls_from_node fetch child bp pf; loop l'
                 end) items w2 =
              for_each (fun c => Walker.extract_urls_from_node fetch c bp pf) items w2).
      revert w2. induction items as [|c l IHl]; intros w; simpl; [reflexivity|].
      apply bind_ext. intros _ w1. apply IHl.
    + change (for_each (fun key => Walker.visit_str fetch key bp pf) (map fst kvs) w2 =
              for_each (fun c => Walker.extract_urls_from_node fetch c bp pf)
                (map (fun kv => JStr (fst kv)) kvs) w2).
      rewrite !for_each_map.
      apply for_each_ext. intros x w. symmetry. apply extract_urls_from_node_str.
Qed.

End WalkerFacts.

Lemma lift_Returned {A} (o : option A) (a : A) w w1 :
  lift o w = Returned a w1 -> o = Some a /\ w1 = w.
Proof. destruct o; simpl; intros H; inversion H; auto. Qed.

Lemma assoc_Forall (Q : json -> Prop) key members v :
  Json.assoc key members = Some v ->
  Forall (fun kv => Q (snd kv)) members -> Q v.
Proof.
  intros Hl HF. induction HF as [|[k x] ms Hx _ IH]; simpl in Hl; [discriminate|].
  destruct (String.eqb k key); [inversion Hl; subst; exact Hx | auto].
Qed.

(** Induction along the recursion of [extract_urls_from_node]: a property
    holds of every node once it holds of a node whenever it holds of the
    children the method iterates over. *)
Lemma walker_ind (P : json -> Prop) :
  (forall node,
      (forall children, Walker.children_of node = Some children -> Forall P children) ->
      P node) ->
  forall node, P node.
Proof.
  intros H.
  assert (Hleaf : forall s, P (JStr s)).
  { intros s. apply H. intros c Hc. discriminate Hc. }
  assert (Hall : forall node,
             P node /\ (forall items, node = JArr items -> Forall P items)).
  { induction node as [| b | r | s | items IH | members IH] using json_ind'.
    - split; [apply H; intros c Hc | intros ? Hc]; discriminate Hc.
    - split; [apply H; intros c Hc | intros ? Hc]; discriminate Hc.
    - split; [apply H; intros c Hc | intros ? Hc]; discriminate Hc.
    - split; [apply Hleaf | intros ? Hc; discriminate Hc].
    - split; [apply H; intros c Hc; discriminate Hc |].
      intros items' Heq. inversion Heq; subst items'.
      eapply Forall_impl; [exact IH | intros x [Hx _]; exact Hx].
    - split; [| intros ? Hc; discriminate Hc].
      apply H. intros children Hc. unfold Walker.children_of in Hc. simpl in Hc.
      destruct (Json.assoc "children" members) as [v|] eqn:E; [|discriminate].
      pose proof (assoc_Forall
                    (fun x => P x /\ (forall items, x = JArr items -> Forall P items))
                    _ _ _ E IH) as [_ Hv].
      destruct v as [| b | r | s | items | kvs]; try discriminate;
        inversion Hc; subst children.
      + apply Forall_forall. intros x Hx. apply list_elem_of_In, in_map_iff in Hx.
        destruct Hx as [c [<- _]]. apply Hleaf.
      + apply Hv. reflexivity.
      + apply Forall_forall. intros x Hx. apply list_elem_of_In, in_map_iff in Hx.
        destruct Hx as [c [<- _]]. apply Hleaf. }
  intros node. apply Hall.
Qed.

Section WalkerPost.
Context {R : World -> World -> Prop} `{!PreOrder R}.
Variable fetch : string -> string -> option string -> M bool.
Hypothesis fetch_post : forall url lp pf w, post (R w) (fetch url lp pf w).

Lemma local_path_world url bp pf w lp w1 :
  Walker.local_path url bp pf w = Returned lp w1 -> w1 = w.
Proof.
  unfold Walker.local_path, get_output_dir. unfold_monad.
  destruct (PyStr.endswith url ".json"); simpl.
  - destruct (Walker.tile_folder url pf); simpl; [|discriminate].
    destruct (output_dir w); simpl; [|discriminate]. intros H; inversion H; reflexivity.
  - intros H; inversion H; reflexivity.
Qed.

Lemma local_path_post url bp pf w : post (R w) (Walker.local_path url bp pf w).
Proof.
  unfold Walker.local_path, get_output_dir, post. unfold_monad.
  destruct (PyStr.endswith url ".json"); simpl; [|reflexivity].
  destruct (Walker.tile_folder url pf); simpl; [|reflexivity].
  destruct (output_dir w); simpl; reflexivity.
Qed.

Lemma visit_content_post node bp pf w :
  post (R w) (Walker.visit_content fetch node bp pf w).
Proof.
  unfold Walker.visit_content.
  apply post_bind; [apply post_lift|]. intros has w1 _.
  destruct has; [|apply post_ret].
  apply post_bind; [apply post_lift|]. intros content w2 _.
  apply post_bind; [apply post_lift|]. intros has_url w3 _.
  destruct has_url; [|apply post_ret].
  apply post_bind; [apply post_lift|]. intros u w4 _.
  destruct u; try (unfold post; simpl; reflexivity).
  apply post_bind; [apply local_path_post|]. intros lp w5 _.
  apply post_bind; [apply fetch_post|]. intros _ w6 _. apply post_ret.
Qed.

(** Whatever every fetch preserves, the walk of a node preserves. *)
Lemma extract_urls_from_node_post node bp pf :
  forall w, post (R w) (Walker.extract_urls_from_node fetch node bp pf w).
Proof.
  induction node as [node IH] using walker_ind. intros w.
  rewrite extract_urls_from_node_eq.
  apply post_bind; [apply visit_content_post|]. intros _ w1 _.
  unfold Walker.visit_children.
  apply post_bind; [apply post_lift|]. intros has w2 _.
  destruct has; [|apply post_ret].
  apply post_bind; [apply post_lift|]. intros children w3 Hc.
  apply lift_Returned in Hc as [Hc _].
  apply post_for_each. exact (IH children Hc).
Qed.

Lemma visit_children_post node bp pf w :
  post (R w) (Walker.visit_children fetch node bp pf w).
Proof.
  unfold Walker.visit_children.
  apply post_bind; [apply post_lift|]. intros has w2 _.
  destruct has; [|apply post_ret].
  apply post_bind; [apply post_lift|]. intros children w3 _.
  apply post_for_each. apply Forall_forall. intros c _ w4.
  apply extract_urls_from_node_post.
Qed.

End WalkerPost.

(* ===================================================================== *)
(** ** The Fetcher: what every call preserves *)
(* ===================================================================== *)

Section RetryPost.
Context {R : World -> World -> Prop} `{!PreOrder R}.
Variable env : Env.
Hypothesis R_get : forall u w, R w (log (EvGet u) w).
Hypothesis R_sleep : forall w, R w (log EvSleep w).

Lemma get_post u w : post (R w) (get env u w).
Proof.
  unfold get, post. destruct (http_get env (trace w) headers u); simpl; apply R_get.
Qed.

Lemma retry_loop_post n retries u : forall w, post (R w) (retry_loop env n retries u w).
Proof.
  induction retries as [|retry rest IH]; intros w; simpl.
  - unfold post; simpl; reflexivity.
  - apply post_try; [apply get_post|]. intros w1 _.
    destruct (retry =? n - 1)%nat; [unfold post; simpl; reflexivity|].
    apply post_bind; [unfold post; simpl; apply R_sleep | intros _ w2 _; apply IH].
Qed.

End RetryPost.

#[global] Instance same_store_preorder : PreOrder same_store.
Proof.
  split.
  - intros w. unfold same_store. repeat split; reflexivity.
  - intros a b c (H1 & H2 & H3 & H4 & H5 & H6) (G1 & G2 & G3 & G4 & G5 & G6).
    unfold same_store. repeat split; congruence.
Qed.

Lemma fetch_writes_app t1 t2 :
  fetch_writes (t1 ++ t2)%list = (fetch_writes t1 ++ fetch_writes t2)%list.
Proof.
  induction t1 as [|e t1 IH]; simpl; [reflexivity|].
  destruct e; simpl; rewrite IH; reflexivity.
Qed.

Lemma all_writes_app t1 t2 :
  all_writes (t1 ++ t2)%list = (all_writes t1 ++ all_writes t2)%list.
Proof.
  induction t1 as [|e t1 IH]; simpl; [reflexivity|].
  destruct e; simpl; rewrite IH; reflexivity.
Qed.

Lemma retry_loop_same_store env n retries u w :
  post (same_store w) (retry_loop env n retries u w).
Proof.
  apply retry_loop_post; intros; unfold same_store; simpl;
    rewrite fetch_writes_app, all_writes_app; simpl; rewrite !app_nil_r;
    repeat split; reflexivity.
Qed.

Section FetcherPost.
Context {R : World -> World -> Prop} `{!PreOrder R}.
Variable env : Env.
Hypothesis R_get : forall u w, R w (log (EvGet u) w).
Hypothesis R_sleep : forall w, R w (log EvSleep w).
Hypothesis R_write : forall p c w,
    p ∉ downloaded_files w ->
    R w (add_downloaded p (log (EvWrite p) (put_file p c w))).

Lemma store_post {B} (k : M B) d sp c w1 :
  sp ∉ downloaded_files w1 ->
  (forall w2, post (R w2) (k w2)) ->
  post (R w1)
    ((_ ← write_file env EvWrite d sp c; _ ← modify (add_downloaded sp); k) w1).
Proof.
  intros Hnew Hk. unfold write_file. unfold_monad.
  destruct (PyStr.truthy d && can_write env (fs w1) d sp).
  - eapply post_weaken; [apply (R_write sp c w1 Hnew) | apply Hk].
  - unfold post; simpl; reflexivity.
Qed.

Lemma process_json_file_post fetch p :
  (forall url lp pf w, post (R w) (fetch url lp pf w)) ->
  forall w, post (R w) (Walker.process_json_file env fetch p w).
Proof.
  intros Hf w. unfold Walker.process_json_file.
  apply post_try; [|intros; apply post_ret].
  apply post_bind; [unfold read_file; apply post_lift|]. intros text w1 _.
  apply post_bind; [apply post_lift|]. intros data w2 _.
  apply post_bind; [apply post_lift|]. intros root w3 _.
  apply extract_urls_from_node_post. exact Hf.
Qed.

Lemma download_file_with_post process :
  (forall p w, post (R w) (process p w)) ->
  forall url sp pf w, post (R w) (download_file_with env process url sp pf w).
Proof.
  intros Hp url sp pf w. unfold download_file_with.
  case_bool_decide as Hin; [apply post_ret|].
  apply post_try; [|intros; apply post_ret].
  apply post_bind; [apply retry_loop_post; assumption|].
  intros response w1 Hr.
  pose proof (retry_loop_same_store env 3 (seq 0 3)
                (full_url (base_url w) url pf) w) as Hs.
  unfold post in Hs. rewrite Hr in Hs. destruct Hs as (_ & _ & Hd & _).
  apply store_post; [simpl in Hd; rewrite Hd; exact Hin|].
  intros w2. apply post_bind; [|intros; apply post_ret].
  destruct (PyStr.endswith url ".json"); [apply Hp | apply post_ret].
Qed.

Lemma download_file_post fuel :
  forall url sp pf w, post (R w) (download_file env fuel url sp pf w).
Proof.
  induction fuel as [|fuel IH]; intros url sp pf w; simpl;
    apply download_file_with_post.
  - intros p w1. unfold post, out_of_fuel; simpl; reflexivity.
  - intros p w1. apply process_json_file_post. exact IH.
Qed.


End FetcherPost.

(* ===================================================================== *)
(** ** Remote URL resolution *)
(* ===================================================================== *)

#[global] Instance extends_preorder : PreOrder extends.
Proof.
  split.
  - intros w. exists []. rewrite app_nil_r. reflexivity.
  - intros a b c [l1 H1] [l2 H2]. exists (l1 ++ l2)%list.
    rewrite H2, H1, app_assoc. reflexivity.
Qed.

Lemma extends_log e w : extends w (log e w).
Proof. exists [e]. reflexivity. Qed.

Lemma retry_loop_cons env n retry rest u :
  retry_loop env n (retry :: rest) u =
  try_except (get env u)
    (if (retry =? n - 1)%nat then raise
     else _ ← modify (log EvSleep); retry_loop env n rest u).
Proof. reflexivity. Qed.

Lemma retry_loop_first_get env u w :
  post (extends (log (EvGet u) w)) (retry_loop env 3 (seq 0 3) u w).
Proof.
  change (seq 0 3) with [0; 1; 2]%nat.
  rewrite retry_loop_cons. apply post_try_from.
  - unfold get, post. destruct (http_get env (trace w) headers u); simpl; reflexivity.
  - intros w1 Hg. change (0 =? 3 - 1)%nat with false. cbv iota.
    apply post_bind; [unfold post; simpl; apply extends_log|].
    intros _ w2 _. apply retry_loop_post; intros; apply extends_log.
Qed.

Lemma download_file_first_get env fuel url sp pf w :
  sp ∉ downloaded_files w ->
  post (extends (log (EvGet (full_url (base_url w) url pf)) w))
    (download_file env fuel url sp pf w).
Proof.
  intros Hnew.
  assert (Hgen : forall process,
             (forall p w1, post (extends w1) (process p w1)) ->
             post (extends (log (EvGet (full_url (base_url w) url pf)) w))
               (download_file_with env process url sp pf w)).
  { intros process Hp. unfold download_file_with.
    rewrite bool_decide_eq_false_2 by exact Hnew.
    apply post_try_from; [|intros; apply post_ret].
    apply post_bind_from; [apply retry_loop_first_get|].
    intros response w1 Hr.
    pose proof (retry_loop_same_store env 3 (seq 0 3)
                  (full_url (base_url w) url pf) w) as Hs.
    unfold post in Hs. rewrite Hr in Hs. destruct Hs as (_ & _ & Hd & _).
    apply store_post.
    - intros p c w2 _. etransitivity; [|apply extends_log].
      exists []. simpl. rewrite app_nil_r. reflexivity.
    - simpl in Hd. rewrite Hd. exact Hnew.
    - intros w2. apply post_bind; [|intros; apply post_ret].
      destruct (PyStr.endswith url ".json"); [apply Hp | apply post_ret]. }
  destruct fuel as [|fuel]; simpl; apply Hgen.
  - intros p w1. unfold post, out_of_fuel; simpl; reflexivity.
  - intros p w1. apply process_json_file_post.
    apply download_file_post; intros; try apply extends_log.
    etransitivity; [|apply extends_log].
    exists []. simpl. rewrite app_nil_r. reflexivity.
Qed.

(** C2: the Fetcher resolves the remote URL of a reference as
    [base/Data/parentFolder/reference] when the parent folder is non-empty
    and as [base/reference] when it is empty or absent, whether or not the
    reference starts with [Data/] (that branch and the fallback agree);
    [parentFolder = "Tile_2"] with reference ["x.b3dm"] gives
    [base/Data/Tile_2/x.b3dm]; and this URL is the one [download_file]
    requests first for a path it has not written yet. *)
Theorem C2_remote_url_resolution (base url : string) (a : ascii) (pf : string) :
  full_url base url (Some (String a pf)) = base ++ "/Data/" ++ String a pf ++ "/" ++ url
  /\ full_url base url (Some "") = base ++ "/" ++ url
  /\ full_url base url None = base ++ "/" ++ url
  /\ full_url base "x.b3dm" (Some "Tile_2") = base ++ "/Data/Tile_2/x.b3dm"
  /\ (forall env fuel sp parent_folder w,
         sp ∉ downloaded_files w ->
         exists later,
           trace (final (download_file env fuel url sp parent_folder w)) =
           (trace w ++ EvGet (full_url (base_url w) url parent_folder) :: later)%list).
Proof.
  repeat split.
  - unfold full_url; simpl. destruct (PyStr.startswith url "Data/"); reflexivity.
  - unfold full_url; simpl. destruct (PyStr.startswith url "Data/"); reflexivity.
  - intros env fuel sp parent_folder w Hnew.
    destruct (download_file_first_get env fuel url sp parent_folder w Hnew) as [later H].
    exists later. rewrite H. simpl. rewrite <- app_assoc. reflexivity.
Qed.

(** C2 on the scenario: the first request for [x.b3dm] under [Tile_2]. *)
Lemma C2_witness :
  exists later,
    trace (final (download_file Scenario.env 1 "x.b3dm" "downloaded_tiles/Data/Tile_2/x.b3dm"
                    (Some "Tile_2") Scenario.started)) =
    (trace Scenario.started ++
       EvGet (full_url (base_url Scenario.started) "x.b3dm" (Some "Tile_2")) :: later)%list.
Proof.
  apply (C2_remote_url_resolution Scenario.base "x.b3dm" "T"%char "ile_2").
  vm_compute. set_solver.
Defined.

(* ===================================================================== *)
(** ** The download set *)
(* ===================================================================== *)

Lemma download_file_unfold env fuel :
  download_file env fuel =
  download_file_with env
    (match fuel with
     | O => fun _ => out_of_fuel
     | S fuel' => Walker.process_json_file env (download_file env fuel')
     end).
Proof. destruct fuel; reflexivity. Qed.

(** C5: a fetch for a local path that is already in the download set
    returns success at once: the world is left exactly as it was (no
    request, no write, no event), whatever the reference and the parent
    folder are, so no URL is resolved. *)
Theorem C5_fetch_short_circuit (env : Env) (fuel : nat) (url save_path : string)
  (parent_folder : option string) (w : World) :
  save_path ∈ downloaded_files w ->
  download_file env fuel url save_path parent_folder w = Returned true w.
Proof.
  intros Hin. rewrite download_file_unfold. unfold download_file_with.
  rewrite bool_decide_eq_true_2 by exact Hin. reflexivity.
Qed.

(** C5 on the scenario: a second fetch of the nested manifest. *)
Lemma C5_witness :
  download_file Scenario.env 0 "Data/Tile_1/Tile_1.json"
    "downloaded_tiles/Data/Tile_1/Tile_1.json" (Some "")
    (add_downloaded "downloaded_tiles/Data/Tile_1/Tile_1.json" Scenario.started)
  = Returned true
      (add_downloaded "downloaded_tiles/Data/Tile_1/Tile_1.json" Scenario.started).
Proof.
  apply C5_fetch_short_circuit. simpl. set_solver.
Defined.

#[global] Instance keeps_written_once_preorder : PreOrder keeps_written_once.
Proof.
  split.
  - intros w. split; [tauto | set_solver].
  - intros a b c [H1 S1] [H2 S2]. split; [tauto | set_solver].
Qed.






(* ===================================================================== *)
(** ** One fetch, step by step *)
(* ===================================================================== *)

(** [download_file] on a path that is not in the download set. *)
Lemma download_file_with_new env process url sp pf w :
  sp ∉ downloaded_files w ->
  download_file_with env process url sp pf w =
  match retry_loop env 3 (seq 0 3) (full_url (base_url w) url pf) w with
  | Returned response w1 =>
      if PyStr.truthy (OsPath.dirname sp) && can_write env (fs w1) (OsPath.dirname sp) sp
      then
        if PyStr.endswith url ".json" then
          match process sp (stored sp response w1) with
          | Returned _ w4 => Returned true w4
          | Raised w4 => Returned false w4
          | OutOfFuel w4 => OutOfFuel w4
          end
        else Returned true (stored sp response w1)
      else Returned false w1
  | Raised w1 => Returned false w1
  | OutOfFuel w1 => OutOfFuel w1
  end.
Proof.
  intros Hnew. unfold download_file_with.
  rewrite bool_decide_eq_false_2 by exact Hnew.
  unfold try_except at 1. unfold mbind at 1. unfold M_bind at 1.
  destruct (retry_loop env 3 (seq 0 3) (full_url (base_url w) url pf) w)
    as [response w1|w1|w1]; [|reflexivity|reflexivity].
  unfold write_file, stored. unfold_monad.
  destruct (PyStr.truthy (OsPath.dirname sp) &&
            can_write env (fs w1) (OsPath.dirname sp) sp); [|reflexivity].
  destruct (PyStr.endswith url ".json"); [|reflexivity].
  destruct (process sp _); reflexivity.
Qed.

(** A nested manifest that was fetched and written: the result is that of
    its processing. *)
Lemma download_file_manifest_step env url sp pf w response w1 :
  sp ∉ downloaded_files w ->
  PyStr.endswith url ".json" = true ->
  retry_loop env 3 (seq 0 3) (full_url (base_url w) url pf) w = Returned response w1 ->
  PyStr.truthy (OsPath.dirname sp) && can_write env (fs w1) (OsPath.dirname sp) sp = true ->
  forall process,
    download_file_with env process url sp pf w =
    match process sp (stored sp response w1) with
    | Returned _ w4 => Returned true w4
    | Raised w4 => Returned false w4
    | OutOfFuel w4 => OutOfFuel w4
    end.
Proof.
  intros Hnew Hjson Hget Hwrite process.
  rewrite download_file_with_new by exact Hnew.
  rewrite Hget, Hwrite, Hjson. reflexivity.
Qed.

(** Once the content half of the method has returned, the children
    follow. *)
Lemma extract_after_visit fetch node bp pf w w' :
  Walker.visit_content fetch node bp pf w = Returned tt w' ->
  Walker.extract_urls_from_node fetch node bp pf w
  = Walker.visit_children fetch node bp pf w'.
Proof.
  intros Hv. rewrite extract_urls_from_node_eq.
  unfold mbind at 1. unfold M_bind at 1. rewrite Hv. reflexivity.
Qed.

Lemma retry_loop_three_failures env u w :
  all_attempts_fail env u w ->
  retry_loop env 3 (seq 0 3) u w = Raised (failed_attempts u w).
Proof.
  intros (H1 & H2 & H3). change (seq 0 3) with [0; 1; 2]%nat.
  unfold failed_attempts. simpl in H2, H3.
  unfold retry_loop, try_except, get, modify, raise, mbind, M_bind. simpl.
  rewrite H1. simpl. rewrite H2. simpl. rewrite H3. reflexivity.
Qed.

Lemma py_getitem_in node key v :
  Json.py_getitem node key = Some v -> Json.py_in key node = Some true.
Proof.
  destruct node; simpl; try discriminate. intros H. rewrite H.
  rewrite bool_decide_eq_true_2 by eauto. reflexivity.
Qed.

(** The content half of the method on a node that carries a reference. *)
Lemma visit_content_reference fetch node content url bp pf w lp :
  Json.py_getitem node "content" = Some content ->
  Json.py_getitem content "url" = Some (JStr url) ->
  Walker.local_path url bp pf w = Returned lp w ->
  Walker.visit_content fetch node bp pf w =
  (_ ← fetch url lp (Some pf); mret tt) w.
Proof.
  intros Hc Hu Hl. unfold Walker.visit_content. unfold_monad.
  rewrite (py_getitem_in _ _ _ Hc). cbv beta iota. rewrite Hc. cbv beta iota.
  rewrite (py_getitem_in _ _ _ Hu). cbv beta iota. rewrite Hu. cbv beta iota.
  rewrite Hl. reflexivity.
Qed.

(** [raise_for_status] raises on the refused replies and on no other. *)
Lemma refused_raises (r : Reply) : refused r <-> raise_for_status r = None.
Proof.
  unfold refused, raise_for_status. destruct r as [|status body].
  - split; [reflexivity | intros _; left; reflexivity].
  - split.
    + intros [H|(s' & b' & H & H3)]; [discriminate H|].
      injection H as -> ->.
      rewrite (proj2 (Nat.leb_le _ _)), (proj2 (Nat.ltb_lt _ _)) by lia.
      reflexivity.
    + intros H. right. exists status, body. split; [reflexivity|].
      destruct (Nat.leb_spec 400 status); destruct (Nat.ltb_spec status 600);
        try discriminate H. lia.
Qed.

Lemma refused_attempts_fail reply parse writable u w :
  Forall refused (attempt_replies reply u w) ->
  all_attempts_fail (served_by reply parse writable) u w.
Proof.
  unfold attempt_replies. intros H.
  apply Forall_cons in H as [H1 H]. apply Forall_cons in H as [H2 H].
  apply Forall_cons in H as [H3 _].
  unfold all_attempts_fail, served_by. cbn [http_get].
  apply refused_raises in H1, H2, H3. auto.
Qed.

(** A 3xx status is a failure for the specification and none for the
    code. *)
Example not_modified_passes :
  spec_failure (Answer 304 "") /\ ~ refused (Answer 304 "")
  /\ raise_for_status (Answer 304 "") = Some "".
Proof.
  split; [right; exists 304%nat, ""; split; [reflexivity | lia]|].
  split; [|reflexivity].
  intros H. apply refused_raises in H. discriminate H.
Qed.

(** C3 as stated fails: a server that answers 304 fails every GET in the
    sense of the claim (the status is not 2xx), and the fetch of
    [top.b3dm] returns [True] after one request, with the (empty) body
    written and the path recorded. *)
Lemma C3_counterexample : ~ C3_as_stated.
Proof.
  intros H.
  destruct (H NotModified.reply (fun _ => None) (fun _ _ _ => true) 0%nat
              "top.b3dm" "downloaded_tiles/top.b3dm" (Some "") Scenario.started)
    as (w' & Hd & _).
  - simpl. set_solver.
  - unfold attempt_replies, NotModified.reply.
    repeat apply List.Forall_cons; try apply List.Forall_nil;
      right; exists 304%nat, ""; (split; [reflexivity | lia]).
  - vm_compute in Hd. discriminate Hd.
Qed.

(** What the code does there: one request, the write, the answer [True]. *)
Example not_modified_run :
  download_file NotModified.env 0 "top.b3dm" "downloaded_tiles/top.b3dm" (Some "")
    Scenario.started
  = Returned true
      (stored "downloaded_tiles/top.b3dm" ""
         (log (EvGet (Scenario.base ++ "/top.b3dm")) Scenario.started)).
Proof.
  rewrite download_file_unfold, download_file_with_new by (simpl; set_solver).
  reflexivity.
Qed.

(** C3 (amended): when the GET of a fetch is refused on all three attempts
    (no response, or a response with a status from 400 to 599, the
    statuses on which [raise_for_status] raises), [download_file] returns
    [False] (it does not raise); the file system and the download set are
    as before and no write is recorded (only the three requests and the
    two pauses are); and the walk goes on: the visit of the referencing
    node's content returns normally, the method continues with the node's
    children, and the loop over the children of its parent continues with
    the node's siblings. *)
Theorem C3_failed_fetch_is_contained
  (reply : list Event -> list (string * string) -> string -> Reply)
  (parse : string -> option json)
  (writable : gmap string string -> string -> string -> bool)
  (fuel : nat) (url sp : string) (pf : option string) (w : World) :
  let env := served_by reply parse writable in
  let u := full_url (base_url w) url pf in
  sp ∉ downloaded_files w ->
  Forall refused (attempt_replies reply u w) ->
  let w' := failed_attempts u w in
  download_file env fuel url sp pf w = Returned false w'
  /\ fs w' = fs w
  /\ downloaded_files w' = downloaded_files w
  /\ fetch_writes (trace w') = fetch_writes (trace w)
  /\ (forall node content base_path parent_folder siblings,
         pf = Some parent_folder ->
         Json.py_getitem node "content" = Some content ->
         Json.py_getitem content "url" = Some (JStr url) ->
         Walker.local_path url base_path parent_folder w = Returned sp w ->
         let walk := fun child =>
           extract_urls_from_node env fuel child base_path parent_folder in
         Walker.visit_content (download_file env fuel) node base_path parent_folder w
           = Returned tt w'
         /\ walk node w
           = Walker.visit_children (download_file env fuel) node base_path parent_folder w'
         /\ for_each walk (node :: siblings) w
           = (_ ← Walker.visit_children (download_file env fuel) node base_path
                    parent_folder;
              for_each walk siblings) w'
         /\ (Json.py_in "children" node = Some false ->
             for_each walk (node :: siblings) w = for_each walk siblings w')).
Proof.
  intros env u Hnew Hfail w'.
  apply (refused_attempts_fail reply parse writable) in Hfail. fold env in Hfail.
  assert (Hd : download_file env fuel url sp pf w = Returned false w').
  { rewrite download_file_unfold, download_file_with_new by exact Hnew.
    fold u. rewrite (retry_loop_three_failures _ _ _ Hfail). reflexivity. }
  split; [exact Hd|].
  split; [reflexivity|]. split; [reflexivity|].
  split.
  { subst w'. unfold failed_attempts. simpl. rewrite !fetch_writes_app. simpl.
    rewrite !app_nil_r. reflexivity. }
  intros node content bp parent_folder siblings -> Hc Hu Hl walk.
  assert (Hv : Walker.visit_content (download_file env fuel) node bp parent_folder w
               = Returned tt w').
  { rewrite (visit_content_reference _ _ _ _ _ _ _ _ Hc Hu Hl).
    unfold mbind, M_bind. rewrite Hd. reflexivity. }
  assert (He : walk node w
               = Walker.visit_children (download_file env fuel) node bp parent_folder w').
  { unfold walk, extract_urls_from_node. apply extract_after_visit. exact Hv. }
  split; [exact Hv|]. split; [exact He|].
  assert (Hs : for_each walk (node :: siblings) w
               = (_ ← Walker.visit_children (download_file env fuel) node bp parent_folder;
                  for_each walk siblings) w').
  { cbn [for_each]. unfold mbind, M_bind. rewrite He. reflexivity. }
  split; [exact Hs|].
  intros Hleaf. rewrite Hs. unfold Walker.visit_children. unfold_monad.
  rewrite Hleaf. reflexivity.
Qed.

(** C3 on the scenario: the server answers 404 for [top.b3dm], the first
    child of the root tile; the fetch returns [False] and the loop goes on
    with the second child. *)
Lemma C3_witness :
  let w := Scenario.started in
  let w' := failed_attempts (Scenario.base ++ "/top.b3dm") w in
  let walk := fun child =>
    extract_urls_from_node Statuses.env 1 child "downloaded_tiles" "" in
  download_file Statuses.env 1 "top.b3dm" "downloaded_tiles/top.b3dm" (Some "") w
  = Returned false w'
  /\ for_each walk scenario_children w = for_each walk (tl scenario_children) w'.
Proof.
  intros w w' walk.
  destruct (C3_failed_fetch_is_contained Statuses.reply Scenario.parse
              (fun _ _ _ => true) 1 "top.b3dm" "downloaded_tiles/top.b3dm" (Some "") w)
    as (Hd & _ & _ & _ & Hwalk).
  - simpl. set_solver.
  - unfold attempt_replies.
    repeat apply List.Forall_cons; try apply List.Forall_nil;
      right; exists 404%nat, "Not Found"; (split; [reflexivity | lia]).
  - split; [exact Hd|].
    destruct (Hwalk (JObj [("content", JObj [("url", JStr "top.b3dm")])])
                (JObj [("url", JStr "top.b3dm")]) "downloaded_tiles" ""
                (tl scenario_children) eq_refl eq_refl eq_refl eq_refl)
      as (_ & _ & _ & Hleaf).
    exact (Hleaf eq_refl).
Defined.

(* ===================================================================== *)
(** ** Malformed manifests *)
(* ===================================================================== *)

Lemma process_json_file_no_raise env fetch p w :
  no_raise (Walker.process_json_file env fetch p w).
Proof.
  unfold Walker.process_json_file, try_except.
  match goal with |- no_raise (match ?b with _ => _ end) => destruct b end;
    simpl; exact I.
Qed.

Lemma process_json_file_unparseable env fetch p w text :
  fs w !! p = Some text ->
  json_load env text = None ->
  Walker.process_json_file env fetch p w = Returned tt w.
Proof.
  intros Hf Hj. unfold Walker.process_json_file, read_file. unfold_monad.
  rewrite Hf. cbv beta iota. rewrite Hj. reflexivity.
Qed.

(** A fetched manifest that does not parse: the fetch has succeeded and
    nothing else happens. *)
Lemma download_file_unparseable env fuel url sp pf w response w1 :
  sp ∉ downloaded_files w ->
  PyStr.endswith url ".json" = true ->
  retry_loop env 3 (seq 0 3) (full_url (base_url w) url pf) w = Returned response w1 ->
  PyStr.truthy (OsPath.dirname sp) && can_write env (fs w1) (OsPath.dirname sp) sp = true ->
  json_load env response = None ->
  download_file env (S fuel) url sp pf w = Returned true (stored sp response w1).
Proof.
  intros Hnew Hjson Hget Hwrite Hbad.
  rewrite download_file_unfold.
  rewrite (download_file_manifest_step env url sp pf w response w1
             Hnew Hjson Hget Hwrite).
  rewrite (process_json_file_unparseable env _ sp _ response); [reflexivity | | exact Hbad].
  unfold stored. simpl. apply lookup_insert_eq.
Qed.

(** C8: [process_json_file] never lets an exception reach its caller; on
    a manifest file that does not parse it returns at once with the world
    untouched, so nothing of that manifest is fetched; and the traversal
    that led to the manifest is not disturbed: the fetch that brought it
    answers [True] with only its own write done, and the walk of the
    referencing node continues with that node's children. *)
Theorem C8_malformed_manifest_is_contained (env : Env) (fuel : nat)
  (json_path : string) (w : World) :
  no_raise (process_json_file env fuel json_path w)
  /\ (forall text,
         fs w !! json_path = Some text ->
         json_load env text = None ->
         process_json_file env fuel json_path w = Returned tt w)
  /\ (forall url pf response w1 node content base_path,
         json_path ∉ downloaded_files w ->
         PyStr.endswith url ".json" = true ->
         retry_loop env 3 (seq 0 3) (full_url (base_url w) url (Some pf)) w
         = Returned response w1 ->
         PyStr.truthy (OsPath.dirname json_path) &&
           can_write env (fs w1) (OsPath.dirname json_path) json_path = true ->
         json_load env response = None ->
         Json.py_getitem node "content" = Some content ->
         Json.py_getitem content "url" = Some (JStr url) ->
         Walker.local_path url base_path pf w = Returned json_path w ->
         download_file env (S fuel) url json_path (Some pf) w
         = Returned true (stored json_path response w1)
         /\ extract_urls_from_node env (S fuel) node base_path pf w
            = Walker.visit_children (download_file env (S fuel)) node base_path pf
                (stored json_path response w1)).
Proof.
  split; [apply process_json_file_no_raise|]. split.
  - intros text Hf Hj. eapply process_json_file_unparseable; eassumption.
  - intros url pf response w1 node content bp Hnew Hjson Hget Hwrite Hbad Hc Hu Hl.
    pose proof (download_file_unparseable env fuel url json_path (Some pf) w response w1
                  Hnew Hjson Hget Hwrite Hbad) as Hd.
    split; [exact Hd|].
    unfold extract_urls_from_node. apply extract_after_visit.
    rewrite (visit_content_reference _ _ _ _ _ _ _ _ Hc Hu Hl).
    unfold mbind, M_bind. rewrite Hd. reflexivity.
Qed.

(** C8 on the scenario: the file that is not JSON, already on disk. *)
Lemma C8_witness :
  process_json_file Scenario.env 3 "downloaded_tiles/Data/bad/bad.json"
    (put_file "downloaded_tiles/Data/bad/bad.json" "<html>" Scenario.started)
  = Returned tt (put_file "downloaded_tiles/Data/bad/bad.json" "<html>" Scenario.started).
Proof.
  apply (proj1 (proj2 (C8_malformed_manifest_is_contained Scenario.env 3
                  "downloaded_tiles/Data/bad/bad.json"
                  (put_file "downloaded_tiles/Data/bad/bad.json" "<html>" Scenario.started)))
           "<html>").
  - simpl. apply lookup_insert_eq.
  - reflexivity.
Defined.

(** The walk of a node that references the file that is not JSON: the
    file is fetched and written, and the walk returns. *)
Example bad_manifest_walk :
  extract_urls_from_node Scenario.env 1
    (JObj [("content", JObj [("url", JStr "Data/bad/bad.json")])])
    "downloaded_tiles" "" Scenario.started
  = Returned tt
      (stored "downloaded_tiles/Data/bad/bad.json" "<html>"
         (log (EvGet (Scenario.base ++ "/Data/bad/bad.json")) Scenario.started)).
Proof. vm_compute. reflexivity. Qed.

(* ===================================================================== *)
(** ** Invariants with a precondition, and calls that settle *)
(* ===================================================================== *)

Section Ends.
Variable strict : bool.
Variable I : World -> Prop.

Lemma ends_lift {A} (o : option A) w : I w -> ends strict I (lift o w).
Proof. destruct o; simpl; auto. Qed.

Lemma ends_bind {A B} (m : M A) (k : A -> M B) w :
  ends strict I (m w) ->
  (forall a w1, I w1 -> ends strict I (k a w1)) ->
  ends strict I ((m ≫= k) w).
Proof.
  intros Hm Hk. unfold mbind, M_bind.
  destruct (m w) as [a w1|w1|w1]; simpl in *; [apply Hk; exact Hm | exact Hm | exact Hm].
Qed.

Lemma ends_try {A} (body handler : M A) w :
  ends strict I (body w) ->
  (forall w1, I w1 -> ends strict I (handler w1)) ->
  ends strict I (try_except body handler w).
Proof.
  intros Hb Hh. unfold try_except.
  destruct (body w) as [a w1|w1|w1]; simpl in *; [exact Hb | apply Hh; exact Hb | exact Hb].
Qed.

Lemma ends_for_each {X} (body : X -> M unit) (xs : list X) :
  Forall (fun x => forall w, I w -> ends strict I (body x w)) xs ->
  forall w, I w -> ends strict I (for_each body xs w).
Proof.
  intros H. induction H as [|x xs Hx _ IH]; intros w Hw; simpl.
  - exact Hw.
  - apply ends_bind; [apply Hx; exact Hw | intros _ w1 Hw1; apply IH; exact Hw1].
Qed.

Variable fetch : string -> string -> option string -> M bool.
Variables bp pf : string.
Hypothesis fetch_ends : forall url lp w,
    I w ->
    Walker.local_path url bp pf w = Returned lp w ->
    ends strict I (fetch url lp (Some pf) w).

Lemma visit_content_ends node w :
  I w -> ends strict I (Walker.visit_content fetch node bp pf w).
Proof.
  intros Hw. unfold Walker.visit_content.
  apply ends_bind; [apply ends_lift; exact Hw|]. intros has w1 Hw1.
  destruct has; [|exact Hw1].
  apply ends_bind; [apply ends_lift; exact Hw1|]. intros content w2 Hw2.
  apply ends_bind; [apply ends_lift; exact Hw2|]. intros has_url w3 Hw3.
  destruct has_url; [|exact Hw3].
  apply ends_bind; [apply ends_lift; exact Hw3|]. intros u w4 Hw4.
  destruct u as [| b | r | url | items | members]; try exact Hw4.
  unfold mbind at 1. unfold M_bind at 1.
  destruct (Walker.local_path url bp pf w4) as [lp w5|w5|w5] eqn:Hl.
  - pose proof (local_path_world _ _ _ _ _ _ Hl) as ->.
    apply ends_bind; [apply fetch_ends; assumption|]. intros _ w6 Hw6. exact Hw6.
  - revert Hl. unfold Walker.local_path, get_output_dir. unfold_monad.
    destruct (PyStr.endswith url ".json"); simpl; [|discriminate].
    destruct (Walker.tile_folder url pf); simpl;
      [|intros H; inversion H; subst; exact Hw4].
    destruct (output_dir w4); simpl; intros H; inversion H; subst; exact Hw4.
  - revert Hl. unfold Walker.local_path, get_output_dir. unfold_monad.
    destruct (PyStr.endswith url ".json"); simpl; [|discriminate].
    destruct (Walker.tile_folder url pf); simpl; [|discriminate].
    destruct (output_dir w4); simpl; discriminate.
Qed.

Lemma extract_urls_from_node_ends node :
  forall w, I w -> ends strict I (Walker.extract_urls_from_node fetch node bp pf w).
Proof.
  induction node as [node IH] using walker_ind. intros w Hw.
  rewrite extract_urls_from_node_eq.
  apply ends_bind; [apply visit_content_ends; exact Hw|]. intros _ w1 Hw1.
  unfold Walker.visit_children.
  apply ends_bind; [apply ends_lift; exact Hw1|]. intros has w2 Hw2.
  destruct has; [|exact Hw2].
  unfold mbind, M_bind.
  destruct (Walker.children_of node) as [children|] eqn:Hc; simpl; [|exact Hw2].
  apply ends_for_each; [exact (IH children eq_refl) | exact Hw2].
Qed.

End Ends.

(** [process_json_file] ends as the fetches of its walk end. *)
Lemma process_json_file_ends strict (I : World -> Prop) env fetch p :
  (forall url lp w,
      I w ->
      Walker.local_path url (OsPath.dirname p) (OsPath.basename (OsPath.dirname p)) w
      = Returned lp w ->
      ends strict I (fetch url lp (Some (OsPath.basename (OsPath.dirname p))) w)) ->
  forall w, I w -> ends strict I (Walker.process_json_file env fetch p w).
Proof.
  intros Hf w Hw. unfold Walker.process_json_file.
  apply ends_try; [|intros w1 Hw1; exact Hw1].
  apply ends_bind; [unfold read_file; apply ends_lift; exact Hw|]. intros text w1 Hw1.
  apply ends_bind; [apply ends_lift; exact Hw1|]. intros data w2 Hw2.
  apply ends_bind; [apply ends_lift; exact Hw2|]. intros root w3 Hw3.
  apply extract_urls_from_node_ends; assumption.
Qed.

Lemma process_json_file_settled (I : World -> Prop) env fetch p w :
  (forall url lp pf w1, I w1 -> settled I (fetch url lp pf w1)) ->
  I w -> exists w', Walker.process_json_file env fetch p w = Returned tt w' /\ I w'.
Proof.
  intros Hf Hw.
  pose proof (process_json_file_ends true I env fetch p
                (fun url lp w1 H1 _ => Hf url lp _ w1 H1) w Hw) as He.
  pose proof (process_json_file_no_raise env fetch p w) as Hn.
  destruct (Walker.process_json_file env fetch p w) as [[] w1|w1|w1];
    simpl in *; [exists w1; split; auto | contradiction | contradiction].
Qed.

(* ===================================================================== *)
(** ** The result of a fetch is about the one asset *)
(* ===================================================================== *)

Lemma server_down_extends env w w' :
  extends w w' -> server_down env w -> server_down env w'.
Proof.
  intros [l Hl] Hd later u. rewrite Hl, <- app_assoc. apply Hd.
Qed.

Lemma server_down_attempts env u w :
  server_down env w -> all_attempts_fail env u w.
Proof.
  intros Hd. unfold all_attempts_fail. simpl. rewrite <- !app_assoc.
  repeat split; [rewrite <- (app_nil_r (trace w)) | |]; apply Hd.
Qed.

Lemma download_file_server_down env fuel url sp pf w :
  server_down env w ->
  settled (server_down env) (download_file env fuel url sp pf w).
Proof.
  intros Hd. rewrite download_file_unfold.
  destruct (decide (sp ∈ downloaded_files w)) as [Hin|Hnew].
  - unfold download_file_with. rewrite bool_decide_eq_true_2 by exact Hin. exact Hd.
  - rewrite download_file_with_new by exact Hnew.
    rewrite (retry_loop_three_failures _ _ _ (server_down_attempts _ _ _ Hd)).
    simpl. eapply server_down_extends; [|exact Hd].
    unfold failed_attempts. repeat (etransitivity; [|apply extends_log]). reflexivity.
Qed.

(** C9: when the download and the write of a nested manifest succeed,
    [download_file] answers [True] whatever becomes of the manifest's
    subtree: it never answers [False] and never raises, with any fuel; it
    answers [True] as soon as the processing of the manifest ends; and it
    does answer [True] when the document is malformed and when every
    later request fails. *)
Theorem C9_fetch_result_ignores_subtree (env : Env) (fuel : nat) (url sp : string)
  (pf : option string) (w : World) (response : string) (w1 : World) :
  sp ∉ downloaded_files w ->
  PyStr.endswith url ".json" = true ->
  retry_loop env 3 (seq 0 3) (full_url (base_url w) url pf) w = Returned response w1 ->
  PyStr.truthy (OsPath.dirname sp) && can_write env (fs w1) (OsPath.dirname sp) sp = true ->
  (forall fuel' w',
      download_file env fuel' url sp pf w <> Returned false w' /\
      download_file env fuel' url sp pf w <> Raised w')
  /\ (forall w4,
         process_json_file env fuel sp (stored sp response w1) = Returned tt w4 ->
         download_file env (S fuel) url sp pf w = Returned true w4)
  /\ (json_load env response = None ->
      download_file env (S fuel) url sp pf w = Returned true (stored sp response w1))
  /\ (server_down env (stored sp response w1) ->
      exists w4, download_file env (S fuel) url sp pf w = Returned true w4).
Proof.
  intros Hnew Hjson Hget Hwrite.
  pose proof (download_file_manifest_step env url sp pf w response w1
                Hnew Hjson Hget Hwrite) as Hstep.
  assert (Hdone : forall w4,
             process_json_file env fuel sp (stored sp response w1) = Returned tt w4 ->
             download_file env (S fuel) url sp pf w = Returned true w4).
  { intros w4 Hp. rewrite download_file_unfold, Hstep.
    unfold process_json_file in Hp. rewrite Hp. reflexivity. }
  split; [|split; [exact Hdone|split]].
  - intros fuel' w'. rewrite download_file_unfold, Hstep.
    destruct fuel' as [|fuel'].
    + unfold out_of_fuel. split; discriminate.
    + pose proof (process_json_file_no_raise env (download_file env fuel') sp
                    (stored sp response w1)) as Hn.
      destruct (Walker.process_json_file env (download_file env fuel') sp
                  (stored sp response w1)); simpl in Hn;
        [split; discriminate | contradiction | split; discriminate].
  - intros Hbad. apply download_file_unparseable; assumption.
  - intros Hdown.
    destruct (process_json_file_settled (server_down env) env (download_file env fuel)
                sp (stored sp response w1)
                (fun u l p w0 H => download_file_server_down env fuel u l p w0 H)
                Hdown) as [w4 [Hp _]].
    exists w4. apply Hdone. exact Hp.
Qed.

(** C9 on the scenario: the fetch of the file that is not JSON. *)
Lemma C9_witness :
  download_file Scenario.env 1 "Data/bad/bad.json" "downloaded_tiles/Data/bad/bad.json"
    (Some "") Scenario.started
  = Returned true
      (stored "downloaded_tiles/Data/bad/bad.json" "<html>"
         (log (EvGet (Scenario.base ++ "/Data/bad/bad.json")) Scenario.started)).
Proof.
  refine (proj1 (proj2 (proj2
            (C9_fetch_result_ignores_subtree Scenario.env 0 "Data/bad/bad.json"
               "downloaded_tiles/Data/bad/bad.json" (Some "") Scenario.started "<html>"
               (log (EvGet (Scenario.base ++ "/Data/bad/bad.json")) Scenario.started)
               _ _ _ _))) _).
  - simpl. set_solver.
  - reflexivity.
  - vm_compute. reflexivity.
  - reflexivity.
  - reflexivity.
Defined.

(** The run of [main] over the scenario: the nested manifest and its
    payload are fetched, the missing payload is tried three times, and the
    second reference to the nested manifest is answered from the set. *)
Example scenario_run :
  trace (final (main Scenario.env 1 {[ "tileset.json" := Json.dumps Scenario.root_doc ]}))
  = [EvCopy "downloaded_tiles/tileset.json";
     EvGet "http://data1.mars3d.cn/3dtiles/qx-simiao/Data/Tile_1/Tile_1.json";
     EvWrite "downloaded_tiles/Data/Tile_1/Tile_1.json";
     EvGet "http://data1.mars3d.cn/3dtiles/qx-simiao/Data/Tile_1/foo.b3dm";
     EvWrite "downloaded_tiles/Data/Tile_1/foo.b3dm";
     EvGet "http://data1.mars3d.cn/3dtiles/qx-simiao/top.b3dm"; EvSleep;
     EvGet "http://data1.mars3d.cn/3dtiles/qx-simiao/top.b3dm"; EvSleep;
     EvGet "http://data1.mars3d.cn/3dtiles/qx-simiao/top.b3dm"].
Proof. vm_compute. reflexivity. Qed.

(* ===================================================================== *)
(** ** The parent folder of the root manifest *)
(* ===================================================================== *)

Section WalkerExt.
Variables f g : string -> string -> option string -> M bool.



End WalkerExt.

(* ===================================================================== *)
(** ** Facts about paths *)
(* ===================================================================== *)

Lemma str_app_cons x (a b : string) : String x a ++ b = String x (a ++ b).
Proof. reflexivity. Qed.

Lemma str_app_assoc (a b c : string) : (a ++ b) ++ c = a ++ (b ++ c).
Proof.
  induction a as [|x a IH]; [reflexivity|].
  rewrite !str_app_cons, IH. reflexivity.
Qed.

Lemma startswith_slash a s :
  PyStr.startswith (String a s) "/" = Ascii.eqb a PyStr.slash.
Proof. simpl. destruct s; apply andb_true_r. Qed.

Lemma contains_slash_cons a s :
  PyStr.contains (String a s) "/" = Ascii.eqb a PyStr.slash || PyStr.contains s "/".
Proof.
  change (PyStr.contains (String a s) "/")
    with (PyStr.startswith (String a s) "/" || PyStr.contains s "/").
  rewrite startswith_slash. reflexivity.
Qed.

Lemma split_not_nil c s : PyStr.split c s <> [].
Proof.
  destruct s as [|a s]; simpl; [discriminate|].
  destruct (Ascii.eqb a c); [discriminate|].
  destruct (PyStr.split c s); discriminate.
Qed.

(** When the reference contains a slash, [url.split('/')[1]] exists. *)
Lemma split_second s :
  PyStr.contains s "/" = true ->
  exists seg, PyStr.split PyStr.slash s !! 1%nat = Some seg.
Proof.
  induction s as [|a s IH]; [discriminate|].
  rewrite contains_slash_cons. simpl.
  destruct (Ascii.eqb a PyStr.slash) eqn:Ea; simpl.
  - destruct (PyStr.split PyStr.slash s) as [|h t] eqn:Es.
    + exfalso. eapply split_not_nil; eassumption.
    + intros _. eexists; reflexivity.
  - intros Hc. destruct (IH Hc) as [seg Hseg].
    destruct (PyStr.split PyStr.slash s) as [|h t]; [discriminate|].
    exists seg. exact Hseg.
Qed.

Lemma no_slash_startswith s :
  PyStr.contains s "/" = false -> PyStr.startswith s "/" = false.
Proof.
  destruct s as [|a s]; [reflexivity|].
  rewrite contains_slash_cons, startswith_slash.
  intros H. apply orb_false_iff in H. tauto.
Qed.

Lemma endswith_slash_cons a s :
  s <> EmptyString ->
  PyStr.endswith (String a s) "/" = PyStr.endswith s "/".
Proof.
  intros Hs. simpl. destruct s as [|b s]; [contradiction|].
  destruct (Ascii.eqb a "/"); reflexivity.
Qed.

Lemma endswith_slash_app a b :
  b <> EmptyString -> PyStr.endswith (a ++ b) "/" = PyStr.endswith b "/".
Proof.
  intros Hb. induction a as [|x a IH]; [reflexivity|].
  change (String x a ++ b) with (String x (a ++ b)).
  rewrite endswith_slash_cons; [exact IH|].
  destruct a; [exact Hb | discriminate].
Qed.

Lemma no_slash_endswith s :
  PyStr.contains s "/" = false -> PyStr.endswith s "/" = false.
Proof.
  induction s as [|a s IH]; [reflexivity|].
  rewrite contains_slash_cons. intros H. apply orb_false_iff in H as [Ha Hs].
  destruct s as [|b s].
  - simpl. unfold PyStr.slash in Ha. rewrite Ha. reflexivity.
  - rewrite endswith_slash_cons by discriminate. apply IH, Hs.
Qed.

Lemma basename_no_slash p : PyStr.contains (OsPath.basename p) "/" = false.
Proof.
  induction p as [|a p IH]; [reflexivity|].
  simpl OsPath.basename.
  destruct (PyStr.contains p "/") eqn:Hp; [exact IH|].
  destruct (Ascii.eqb a PyStr.slash) eqn:Ea; [exact Hp|].
  rewrite contains_slash_cons, Ea, Hp. reflexivity.
Qed.

Lemma truthy_app_r a b : PyStr.truthy b = true -> PyStr.truthy (a ++ b) = true.
Proof.
  destruct b as [|x b]; [discriminate|]. intros _.
  destruct a; reflexivity.
Qed.

(** [os.path.join(a, b)] puts one separator between a directory that
    does not end in one and a relative path. *)
Lemma join2_plain a b :
  PyStr.truthy a = true ->
  PyStr.endswith a "/" = false ->
  PyStr.startswith b "/" = false ->
  OsPath.join2 a b = a ++ "/" ++ b.
Proof.
  intros Ha He Hb. unfold OsPath.join2. rewrite Hb, Ha, He. reflexivity.
Qed.

(** The directory [outputRoot/Data/tileFolder] and a file in it. *)
Lemma join_data_folder out tf b :
  PyStr.truthy out = true ->
  PyStr.endswith out "/" = false ->
  PyStr.truthy tf = true ->
  PyStr.contains tf "/" = false ->
  PyStr.contains b "/" = false ->
  OsPath.join (OsPath.join out ["Data"; tf]) [b] = out ++ "/Data/" ++ tf ++ "/" ++ b.
Proof.
  intros Ho Hoe Ht Htc Hb. unfold OsPath.join. simpl.
  rewrite (join2_plain out "Data" Ho Hoe eq_refl).
  assert (H1 : OsPath.join2 (out ++ "/" ++ "Data") tf = (out ++ "/" ++ "Data") ++ "/" ++ tf).
  { apply join2_plain.
    - apply truthy_app_r. reflexivity.
    - rewrite endswith_slash_app by discriminate. reflexivity.
    - apply no_slash_startswith, Htc. }
  rewrite H1.
  rewrite join2_plain.
  - rewrite !str_app_assoc. reflexivity.
  - apply truthy_app_r. reflexivity.
  - rewrite endswith_slash_app.
    + change ("/" ++ tf) with (String "/" tf).
      rewrite endswith_slash_cons; [apply no_slash_endswith, Htc|].
      destruct tf; [discriminate Ht | discriminate].
    + discriminate.
  - apply no_slash_startswith, Hb.
Qed.

(* ===================================================================== *)
(** ** Local destinations *)
(* ===================================================================== *)

(** C1 as stated fails: the code takes the segment at index 1, so for the
    usual reference [Data/Tile_1/Tile_1.json] the folder is [Tile_1], not
    the first segment [Data]. *)
Lemma C1_counterexample : ~ C1_as_stated.
Proof.
  intros H.
  specialize (H "Data/Tile_1/Tile_1.json" "downloaded_tiles" "" "downloaded_tiles"
                Scenario.started eq_refl eq_refl).
  vm_compute in H. discriminate H.
Qed.

Lemma local_path_manifest url bp pf out w :
  PyStr.endswith url ".json" = true ->
  output_dir w = Some out ->
  exists tf,
    Walker.tile_folder url pf = Some tf /\
    Walker.local_path url bp pf w
    = Returned (OsPath.join out ["Data"; tf; OsPath.basename url]) w.
Proof.
  intros Hj Ho.
  assert (Ht : exists tf, Walker.tile_folder url pf = Some tf).
  { unfold Walker.tile_folder. destruct (PyStr.contains url "/") eqn:Hc.
    - apply split_second, Hc.
    - eexists; reflexivity. }
  destruct Ht as [tf Ht]. exists tf. split; [exact Ht|].
  unfold Walker.local_path. rewrite Hj, Ht. unfold get_output_dir. unfold_monad.
  cbv beta iota. rewrite Ho. reflexivity.
Qed.

(** C1 (amended): for a reference that ends with [.json] the tile folder
    is the segment at index 1 of the reference split on [/], i.e. the
    segment after the first [/] (the parent folder when the reference has
    no [/]); the destination is
    [os.path.join(outputRoot, 'Data', tileFolder, basename)], which reads
    [outputRoot/Data/tileFolder/basename] when the output root is
    non-empty without a trailing [/] and the tile folder is non-empty
    without a [/]; the Walker hands that destination to the Fetcher; and
    ["a/Tile_7/sub.json"] with an empty parent folder goes to
    [outputRoot/Data/Tile_7/sub.json]. *)
Theorem C1_nested_manifest_destination (url base_path parent_folder out : string)
  (w : World) :
  PyStr.endswith url ".json" = true ->
  output_dir w = Some out ->
  exists tf,
    Walker.tile_folder url parent_folder = Some tf
    /\ (PyStr.contains url "/" = true -> PyStr.split PyStr.slash url !! 1%nat = Some tf)
    /\ (PyStr.contains url "/" = false -> tf = parent_folder)
    /\ Walker.local_path url base_path parent_folder w
       = Returned (OsPath.join out ["Data"; tf; OsPath.basename url]) w
    /\ (PyStr.truthy out = true -> PyStr.endswith out "/" = false ->
        PyStr.truthy tf = true -> PyStr.contains tf "/" = false ->
        OsPath.join out ["Data"; tf; OsPath.basename url]
        = out ++ "/Data/" ++ tf ++ "/" ++ OsPath.basename url)
    /\ (forall fetch node content,
           Json.py_getitem node "content" = Some content ->
           Json.py_getitem content "url" = Some (JStr url) ->
           Walker.visit_content fetch node base_path parent_folder w
           = (_ ← fetch url (OsPath.join out ["Data"; tf; OsPath.basename url])
                    (Some parent_folder); mret tt) w)
    /\ (PyStr.truthy out = true -> PyStr.endswith out "/" = false ->
        Walker.local_path "a/Tile_7/sub.json" base_path "" w
        = Returned (out ++ "/Data/Tile_7/sub.json") w).
Proof.
  intros Hj Ho.
  destruct (local_path_manifest url base_path parent_folder out w Hj Ho) as [tf [Ht Hl]].
  exists tf. split; [exact Ht|].
  split.
  { intros Hc. unfold Walker.tile_folder in Ht. rewrite Hc in Ht. exact Ht. }
  split.
  { intros Hc. unfold Walker.tile_folder in Ht. rewrite Hc in Ht. congruence. }
  split; [exact Hl|].
  split.
  { intros H1 H2 H3 H4.
    apply (join_data_folder out tf (OsPath.basename url) H1 H2 H3 H4).
    apply basename_no_slash. }
  split.
  { intros fetch node content Hc Hu.
    apply visit_content_reference with (content := content); assumption. }
  intros H1 H2.
  destruct (local_path_manifest "a/Tile_7/sub.json" base_path "" out w eq_refl Ho)
    as [tf' [Ht' Hl']].
  vm_compute in Ht'. inversion Ht'; subst tf'. rewrite Hl'. f_equal.
  apply (join_data_folder out "Tile_7" "sub.json" H1 H2 eq_refl eq_refl eq_refl).
Qed.

(** C1 (amended) on the example of the specification. *)
Lemma C1_witness :
  Walker.local_path "a/Tile_7/sub.json" "downloaded_tiles" "" Scenario.started
  = Returned "downloaded_tiles/Data/Tile_7/sub.json" Scenario.started.
Proof.
  destruct (C1_nested_manifest_destination "a/Tile_7/sub.json" "downloaded_tiles" ""
              "downloaded_tiles" Scenario.started eq_refl eq_refl)
    as (tf & _ & _ & _ & _ & _ & _ & H).
  exact (H eq_refl eq_refl).
Defined.

Lemma str_length_app (a b : string) :
  String.length (a ++ b) = (String.length a + String.length b)%nat.
Proof.
  induction a as [|x a IH]; [reflexivity|].
  rewrite str_app_cons. simpl. rewrite IH. reflexivity.
Qed.

Lemma truthy_length (a : string) : PyStr.truthy a = true -> (0 < String.length a)%nat.
Proof. destruct a; [discriminate | simpl; lia]. Qed.

(** The words of the claim do not hold of line 105 on a reference that
    begins with [/]: it is saved at that absolute path, not under the
    directory of the manifest. *)
Lemma rule_B_drops_base_path : ~ C7_as_stated.
Proof.
  intros H.
  destruct (H "/foo.b3dm" "downloaded_tiles/Data/Tile_1" "Tile_1" Scenario.started eq_refl)
    as [H1|H1]; vm_compute in H1; discriminate H1.
Qed.

(** C7: line 105 is [os.path.join(base_path, url)], written to save the
    payload in the directory of the referencing manifest (the comment of
    line 104), and [join] drops [base_path] when [url] begins with [/].
    For a reference that does not end with [.json]:
    - when it begins with [/], the destination is the reference itself,
      which is neither [basePath/reference] nor [basePath] followed by
      the reference, and that is the path the Walker hands to the Fetcher;
    - when it does not, the destination is [basePath/reference] with one
      separator, for a base path that is not empty and does not end with
      [/], and [basePath] followed by the reference for a base path that
      ends with [/];
    - ["/foo.b3dm"] in the manifest [downloaded_tiles/Data/Tile_1/Tile_1.json]
      is requested from [base/Data/Tile_1//foo.b3dm] and written to
      [/foo.b3dm]; ["foo.b3dm"] under [outputRoot/Data/Tile_1] goes to
      [outputRoot/Data/Tile_1/foo.b3dm]. *)
Theorem C7_payload_destination (url base_path parent_folder : string) (w : World) :
  PyStr.endswith url ".json" = false ->
  (PyStr.startswith url "/" = true ->
     Walker.local_path url base_path parent_folder w = Returned url w
     /\ (forall fetch node content,
           Json.py_getitem node "content" = Some content ->
           Json.py_getitem content "url" = Some (JStr url) ->
           Walker.visit_content fetch node base_path parent_folder w
           = (_ ← fetch url url (Some parent_folder); mret tt) w)
     /\ (PyStr.truthy base_path = true ->
         url <> base_path ++ "/" ++ url /\ url <> base_path ++ url))
  /\ (PyStr.startswith url "/" = false ->
      (PyStr.truthy base_path = true -> PyStr.endswith base_path "/" = false ->
       Walker.local_path url base_path parent_folder w
       = Returned (base_path ++ "/" ++ url) w)
      /\ (PyStr.endswith base_path "/" = true ->
          Walker.local_path url base_path parent_folder w
          = Returned (base_path ++ url) w))
  /\ process_json_file Absolute.env 0 Absolute.manifest Absolute.start
     = Returned tt
         (stored "/foo.b3dm" "b3dm-bytes"
            (log (EvGet (Scenario.base ++ "/Data/Tile_1//foo.b3dm")) Absolute.start))
  /\ Walker.local_path "foo.b3dm" "outputRoot/Data/Tile_1" parent_folder w
     = Returned "outputRoot/Data/Tile_1/foo.b3dm" w.
Proof.
  intros Hj.
  assert (Hl : Walker.local_path url base_path parent_folder w
               = Returned (OsPath.join base_path [url]) w).
  { unfold Walker.local_path. rewrite Hj. reflexivity. }
  split.
  { intros Habs.
    assert (Hu : OsPath.join base_path [url] = url).
    { unfold OsPath.join, OsPath.join2. simpl. rewrite Habs. reflexivity. }
    rewrite Hu in Hl.
    split; [exact Hl|]. split.
    - intros fetch node content Hc Hn.
      apply visit_content_reference with (content := content); assumption.
    - intros Ht. apply truthy_length in Ht.
      split; intros E; apply (f_equal String.length) in E;
        rewrite !str_length_app in E; simpl in E; lia. }
  split.
  { intros Hrel. split.
    - intros Ht He. rewrite Hl. f_equal. apply join2_plain; assumption.
    - intros He. rewrite Hl. f_equal.
      unfold OsPath.join, OsPath.join2. simpl.
      rewrite Hrel, He, orb_true_r. reflexivity. }
  split; [|reflexivity].
  vm_compute. reflexivity.
Qed.

(** C7 at the reference [/foo.b3dm]. *)
Lemma C7_witness :
  Walker.local_path "/foo.b3dm" "downloaded_tiles/Data/Tile_1" "Tile_1" Scenario.started
  = Returned "/foo.b3dm" Scenario.started
  /\ "/foo.b3dm" <> "downloaded_tiles/Data/Tile_1" ++ "/" ++ "/foo.b3dm"
  /\ "/foo.b3dm" <> "downloaded_tiles/Data/Tile_1" ++ "/foo.b3dm".
Proof.
  destruct (proj1 (C7_payload_destination "/foo.b3dm" "downloaded_tiles/Data/Tile_1"
                     "Tile_1" Scenario.started eq_refl) eq_refl)
    as (Hl & _ & Hne).
  split; [exact Hl | exact (Hne eq_refl)].
Defined.

(* ===================================================================== *)
(** ** The root manifest *)
(* ===================================================================== *)

Lemma try_except_ext {A} (b1 b2 h : M A) w :
  b1 w = b2 w -> try_except b1 h w = try_except b2 h w.
Proof. intros H. unfold try_except. rewrite H. reflexivity. Qed.

(** [process_tileset] up to the copy: read, parse, dump. *)
Lemma process_tileset_copied env fetch tp bp w text data :
  fs w !! tp = Some text ->
  json_load env text = Some data ->
  PyStr.truthy bp && can_write env (fs w) bp (OsPath.join bp ["tileset.json"]) = true ->
  Walker.process_tileset env fetch tp bp w =
  try_except
    (root ← lift (Json.py_get data "root" (JObj []));
     Walker.extract_urls_from_node fetch root bp "")
    (mret tt) (root_copied bp data w).
Proof.
  intros Hf Hj Hw. unfold Walker.process_tileset, read_file, write_file, root_copied.
  unfold_monad. cbv beta iota. change (fs (set_output_dir bp w)) with (fs w).
  rewrite Hf. cbv beta iota. rewrite Hj. cbv beta iota.
  change (fs (set_output_dir bp w)) with (fs w).
  rewrite Hw. reflexivity.
Qed.





(* ===================================================================== *)
(** ** The copy of the root manifest *)
(* ===================================================================== *)

(** C4 as stated fails: the input of eleven bytes comes out as twelve,
    since [json.dump] writes a space after the colon. *)
Lemma C4_counterexample : ~ C4_as_stated.
Proof.
  intros H.
  specialize (H Compact.env 0%nat "tileset.json" "downloaded_tiles" Compact.start
                Compact.text Compact.doc eq_refl eq_refl eq_refl).
  vm_compute in H. discriminate H.
Qed.

(** C4 (amended): what [process_tileset] writes to
    [outputRoot/tileset.json] is [json.dump] of the parsed root manifest,
    written before the traversal begins (the copy is the first event of
    the run, and the walk starts from the world that holds it); the file
    is the input byte for byte when the input already is in the format
    [json.dump] writes, and it is what the run leaves there when the root
    node references nothing. *)
Theorem C4_root_copy_is_a_dump (env : Env) (fuel : nat) (tileset_path base_path : string)
  (w : World) (text : string) (data : json) :
  fs w !! tileset_path = Some text ->
  json_load env text = Some data ->
  PyStr.truthy base_path &&
    can_write env (fs w) base_path (OsPath.join base_path ["tileset.json"]) = true ->
  fs (root_copied base_path data w) !! OsPath.join base_path ["tileset.json"]
  = Some (Json.dumps data)
  /\ process_tileset env fuel tileset_path base_path w
     = try_except
         (root ← lift (Json.py_get data "root" (JObj []));
          extract_urls_from_node env fuel root base_path "")
         (mret tt) (root_copied base_path data w)
  /\ (exists later,
         trace (final (process_tileset env fuel tileset_path base_path w))
         = (trace w ++ EvCopy (OsPath.join base_path ["tileset.json"]) :: later)%list)
  /\ (text = Json.dumps data ->
      fs (root_copied base_path data w) !! OsPath.join base_path ["tileset.json"]
      = Some text)
  /\ (Json.py_get data "root" (JObj []) = Some (JObj []) ->
      fs (final (process_tileset env fuel tileset_path base_path w))
        !! OsPath.join base_path ["tileset.json"] = Some (Json.dumps data)).
Proof.
  intros Hf Hj Hw.
  assert (Hfile : fs (root_copied base_path data w) !! OsPath.join base_path ["tileset.json"]
                  = Some (Json.dumps data)).
  { unfold root_copied. simpl. apply lookup_insert_eq. }
  assert (Hrun := process_tileset_copied env (download_file env fuel) _ _ _ _ _ Hf Hj Hw).
  split; [exact Hfile|]. split; [exact Hrun|]. split; [|split].
  - unfold process_tileset. rewrite Hrun.
    assert (Hext : post (extends (root_copied base_path data w))
                     (try_except
                        (root ← lift (Json.py_get data "root" (JObj []));
                         Walker.extract_urls_from_node (download_file env fuel) root
                           base_path "") (mret tt) (root_copied base_path data w))).
    { apply post_try; [|intros; apply post_ret].
      apply post_bind; [apply post_lift|]. intros root w1 _.
      apply extract_urls_from_node_post. intros.
      apply download_file_post; intros; try apply extends_log.
      etransitivity; [|apply extends_log]. exists []. simpl.
      rewrite app_nil_r. reflexivity. }
    destruct Hext as [later Hlater]. exists later. rewrite Hlater.
    unfold root_copied. simpl. rewrite <- app_assoc. reflexivity.
  - intros ->. exact Hfile.
  - intros Hr. unfold process_tileset. rewrite Hrun. unfold_monad. rewrite Hr.
    exact Hfile.
Qed.

(** C4 (amended) on the compact manifest. *)
Lemma C4_witness :
  fs (final (process_tileset Compact.env 0 "tileset.json" "downloaded_tiles" Compact.start))
    !! OsPath.join "downloaded_tiles" ["tileset.json"]
  = Some (Json.dumps Compact.doc).
Proof.
  refine (proj2 (proj2 (proj2 (proj2
            (C4_root_copy_is_a_dump Compact.env 0 "tileset.json" "downloaded_tiles"
               Compact.start Compact.text Compact.doc _ _ _)))) _);
    reflexivity.
Defined.

(** The two files of the counterexample. *)
Example compact_lengths :
  String.length Compact.text = 11%nat /\
  String.length (Json.dumps Compact.doc) = 12%nat.
Proof. split; reflexivity. Qed.

(* ===================================================================== *)
(** ** No destination of a fetch is the copy of the root manifest *)
(* ===================================================================== *)





Lemma contains_slash_mid a b : PyStr.contains (a ++ "/" ++ b) "/" = true.
Proof.
  induction a as [|x a IH].
  - change (EmptyString ++ "/" ++ b) with (String "/" b).
    rewrite contains_slash_cons. reflexivity.
  - rewrite str_app_cons, contains_slash_cons, IH. apply orb_true_r.
Qed.







(* ===================================================================== *)
(** ** Every write of a run *)
(* ===================================================================== *)








(* ===================================================================== *)
(** ** The base URL of a downloader *)
(* ===================================================================== *)

Lemma rstrip_no_trailing s :
  PyStr.endswith (PyStr.rstrip PyStr.slash s) "/" = false.
Proof.
  induction s as [|a s IH]; [reflexivity|].
  cbn [PyStr.rstrip].
  destruct (Ascii.eqb a PyStr.slash) eqn:Ea;
    destruct (PyStr.rstrip PyStr.slash s) as [|b r] eqn:Er; cbn [String.eqb andb].
  - reflexivity.
  - rewrite endswith_slash_cons by discriminate. exact IH.
  - cbn [PyStr.endswith String.eqb]. unfold PyStr.slash in Ea. rewrite Ea. reflexivity.
  - rewrite endswith_slash_cons by discriminate. exact IH.
Qed.

Lemma rstrip_fixed s :
  PyStr.endswith s "/" = false -> PyStr.rstrip PyStr.slash s = s.
Proof.
  induction s as [|a s IH]; [reflexivity|].
  intros He. cbn [PyStr.rstrip]. destruct s as [|b s].
  - cbn [PyStr.rstrip String.eqb]. cbn [PyStr.endswith String.eqb] in He.
    unfold PyStr.slash.
    destruct (Ascii.eqb a "/"); [discriminate He | reflexivity].
  - rewrite endswith_slash_cons in He by discriminate.
    rewrite (IH He). cbn [String.eqb]. rewrite andb_false_r. reflexivity.
Qed.

Lemma rstrip_app_slash s :
  PyStr.rstrip PyStr.slash (s ++ "/") = PyStr.rstrip PyStr.slash s.
Proof.
  induction s as [|a s IH]; [reflexivity|].
  rewrite str_app_cons. cbn [PyStr.rstrip]. rewrite IH. reflexivity.
Qed.

Lemma rstrip_decompose s :
  exists t, s = PyStr.rstrip PyStr.slash s ++ t /\ PyStr.all_char PyStr.slash t = true.
Proof.
  induction s as [|a s [t [Hs Ht]]].
  - exists EmptyString. split; reflexivity.
  - cbn [PyStr.rstrip].
    destruct (Ascii.eqb a PyStr.slash && String.eqb (PyStr.rstrip PyStr.slash s) EmptyString)
      eqn:Hc.
    + apply andb_true_iff in Hc as [Ha Hr]. apply String.eqb_eq in Hr.
      rewrite Hr in Hs. exists (String a t). split.
      * rewrite Hs at 1. reflexivity.
      * cbn [PyStr.all_char]. rewrite Ha, Ht. reflexivity.
    + exists t. split; [|exact Ht]. rewrite str_app_cons, <- Hs. reflexivity.
Qed.

(** [__init__] strips the trailing slashes of the base URL and nothing
    else: the stored base never ends in [/], the argument is the stored
    base followed by slashes only, a base without a trailing slash is
    stored as it is, and one more trailing slash makes no difference to
    the downloader. *)
Theorem base_url_normalised (url : string) (files : gmap string string) :
  PyStr.endswith (base_url (init url files)) "/" = false
  /\ (exists t, url = base_url (init url files) ++ t /\ PyStr.all_char PyStr.slash t = true)
  /\ (PyStr.endswith url "/" = false -> base_url (init url files) = url)
  /\ init (url ++ "/") files = init url files.
Proof.
  split; [apply rstrip_no_trailing|].
  split; [apply rstrip_decompose|].
  split; [apply rstrip_fixed|].
  unfold init. rewrite rstrip_app_slash. reflexivity.
Qed.

(** The base URL of [main] is stored unchanged. *)
Lemma base_url_normalised_witness :
  base_url (init Scenario.base ∅) = Scenario.base.
Proof.
  exact (proj1 (proj2 (proj2 (base_url_normalised Scenario.base ∅))) eq_refl).
Defined.

(* ===================================================================== *)
(** ** Runs that stop before the walk *)
(* ===================================================================== *)

(** [process_tileset] gives up silently, with the output directory set and
    nothing copied or requested, when the root manifest is missing and
    when it does not parse; and always when the output directory is the
    empty string, since [os.makedirs('')] raises before the copy is
    opened. *)
Theorem process_tileset_gives_up (env : Env) (fuel : nat) (tileset_path base_path : string)
  (w : World) :
  (fs w !! tileset_path = None ->
   process_tileset env fuel tileset_path base_path w
   = Returned tt (set_output_dir base_path w))
  /\ (forall text,
         fs w !! tileset_path = Some text ->
         json_load env text = None ->
         process_tileset env fuel tileset_path base_path w
         = Returned tt (set_output_dir base_path w))
  /\ process_tileset env fuel tileset_path "" w = Returned tt (set_output_dir "" w).
Proof.
  assert (H1 : forall bp, fs w !! tileset_path = None ->
               process_tileset env fuel tileset_path bp w = Returned tt (set_output_dir bp w)).
  { intros bp Hf. unfold process_tileset, Walker.process_tileset, read_file. unfold_monad.
    cbv beta iota. change (fs (set_output_dir bp w)) with (fs w). rewrite Hf. reflexivity. }
  assert (H2 : forall bp text, fs w !! tileset_path = Some text -> json_load env text = None ->
               process_tileset env fuel tileset_path bp w = Returned tt (set_output_dir bp w)).
  { intros bp text Hf Hj.
    unfold process_tileset, Walker.process_tileset, read_file. unfold_monad.
    cbv beta iota. change (fs (set_output_dir bp w)) with (fs w). rewrite Hf.
    cbv beta iota. rewrite Hj. reflexivity. }
  split; [apply H1|]. split; [apply H2|].
  destruct (fs w !! tileset_path) as [text|] eqn:Hf; [|apply (H1 "" eq_refl)].
  destruct (json_load env text) as [data|] eqn:Hj; [|apply (H2 "" text eq_refl Hj)].
  unfold process_tileset, Walker.process_tileset, read_file, write_file. unfold_monad.
  cbv beta iota. change (fs (set_output_dir "" w)) with (fs w). rewrite Hf.
  cbv beta iota. rewrite Hj. reflexivity.
Qed.

(** Without a root manifest on disk the run of [main] does nothing. *)
Lemma process_tileset_gives_up_witness :
  process_tileset Scenario.env 3 "tileset.json" "downloaded_tiles" (init Scenario.base ∅)
  = Returned tt (set_output_dir "downloaded_tiles" (init Scenario.base ∅)).
Proof.
  apply (proj1 (process_tileset_gives_up Scenario.env 3 "tileset.json" "downloaded_tiles"
                  (init Scenario.base ∅))).
  reflexivity.
Defined.

(* ===================================================================== *)
(** ** The retry loop *)
(* ===================================================================== *)

Lemma retry_loop_never_out_of_fuel env n retries u :
  forall w w', retry_loop env n retries u w <> OutOfFuel w'.
Proof.
  induction retries as [|retry rest IH]; intros w w'; [discriminate|].
  rewrite retry_loop_cons. unfold try_except, get.
  destruct (http_get env (trace w) headers u); simpl; [discriminate|].
  destruct (retry =? n - 1)%nat; [discriminate|].
  unfold_monad. apply IH.
Qed.

(** One fetch makes between one and three requests, all for the same URL,
    with a pause between two of them and nothing else in between; each
    request is answered from what happened before it; the loop stops at
    the first answer, which is what it returns, and it gives up (raises)
    only when the third request has failed too.  It touches neither the
    files nor the download set. *)
Theorem retry_loop_attempts (env : Env) (u : string) (w : World) :
  exists n,
    (1 <= n <= 3)%nat
    /\ trace (final (retry_loop env 3 (seq 0 3) u w)) = (trace w ++ attempts u n)%list
    /\ (forall k, (1 <= k < n)%nat ->
                  http_get env (trace w ++ removelast (attempts u k))%list headers u = None)
    /\ match retry_loop env 3 (seq 0 3) u w with
       | Returned r _ =>
           http_get env (trace w ++ removelast (attempts u n))%list headers u = Some r
       | Raised _ =>
           n = 3%nat /\
           http_get env (trace w ++ removelast (attempts u 3))%list headers u = None
       | OutOfFuel _ => False
       end
    /\ same_store w (final (retry_loop env 3 (seq 0 3) u w)).
Proof.
  pose proof (retry_loop_same_store env 3 (seq 0 3) u w) as Hs. unfold post in Hs.
  change (seq 0 3) with [0; 1; 2]%nat in *.
  revert Hs.
  unfold retry_loop, try_except, get, modify, raise, mbind, M_bind. simpl.
  destruct (http_get env (trace w) headers u) as [r1|] eqn:H1; simpl.
  { intros Hs. exists 1%nat. split; [lia|]. split; [reflexivity|].
    split; [intros k Hk; lia|]. split; [|exact Hs].
    simpl. rewrite app_nil_r. exact H1. }
  destruct (http_get env ((trace w ++ [EvGet u]) ++ [EvSleep]) headers u) as [r2|] eqn:H2;
    simpl.
  { intros Hs. exists 2%nat. split; [lia|].
    split; [rewrite <- !app_assoc; reflexivity|].
    split; [|split; [|exact Hs]].
    - intros k Hk. assert (k = 1%nat) as -> by lia. simpl. rewrite app_nil_r. exact H1.
    - simpl. rewrite <- H2, <- app_assoc. reflexivity. }
  destruct (http_get env
              ((((trace w ++ [EvGet u]) ++ [EvSleep]) ++ [EvGet u]) ++ [EvSleep]) headers u)
    as [r3|] eqn:H3; simpl.
  { intros Hs. exists 3%nat. split; [lia|].
    split; [rewrite <- !app_assoc; reflexivity|].
    split; [|split; [|exact Hs]].
    - intros k Hk. assert (k = 1 \/ k = 2)%nat as [-> | ->] by lia; simpl.
      + rewrite app_nil_r. exact H1.
      + rewrite <- H2, <- app_assoc. reflexivity.
    - simpl. rewrite <- H3, <- !app_assoc. reflexivity. }
  intros Hs. exists 3%nat. split; [lia|].
  split; [rewrite <- !app_assoc; reflexivity|].
  split; [|split; [|exact Hs]].
  - intros k Hk. assert (k = 1 \/ k = 2)%nat as [-> | ->] by lia; simpl.
    + rewrite app_nil_r. exact H1.
    + rewrite <- H2, <- app_assoc. reflexivity.
  - split; [reflexivity|]. simpl. rewrite <- H3, <- !app_assoc. reflexivity.
Qed.

(* ===================================================================== *)
(** ** What a fetch leaves behind *)
(* ===================================================================== *)

#[global] Instance keeps_files_preorder : PreOrder keeps_files.
Proof.
  split.
  - intros w. split; [set_solver | reflexivity].
  - intros a b c [S1 F1] [S2 F2]. split; [set_solver|].
    intros p Hp. rewrite (F2 p (S1 p Hp)). apply F1, Hp.
Qed.

Lemma keeps_files_log e w : keeps_files w (log e w).
Proof. split; [simpl; set_solver | reflexivity]. Qed.

Lemma keeps_files_stored p c w :
  p ∉ downloaded_files w -> keeps_files w (stored p c w).
Proof.
  intros Hnew. unfold stored. split; [simpl; set_solver|].
  intros q Hq. simpl. apply lookup_insert_ne. intros ->. exact (Hnew Hq).
Qed.

Lemma download_file_keeps_files env fuel url sp pf w :
  post (keeps_files w) (download_file env fuel url sp pf w).
Proof.
  apply download_file_post; intros; try apply keeps_files_log.
  apply keeps_files_stored. assumption.
Qed.

(** What the processing of a fetched manifest is, for a budget. *)
Lemma download_file_process env fuel sp w :
  post (keeps_files w)
    (match fuel with
     | O => fun _ => out_of_fuel
     | S fuel' => Walker.process_json_file env (download_file env fuel')
     end sp w).
Proof.
  destruct fuel as [|fuel].
  - unfold post, out_of_fuel. simpl. reflexivity.
  - apply process_json_file_post. intros. apply download_file_keeps_files.
Qed.

Lemma download_file_process_no_raise env fuel sp w :
  no_raise
    (match fuel with
     | O => fun _ => out_of_fuel
     | S fuel' => Walker.process_json_file env (download_file env fuel')
     end sp w).
Proof.
  destruct fuel as [|fuel]; [exact I | apply process_json_file_no_raise].
Qed.

(** The answer of a fetch says whether the path is recorded: when
    [download_file] returns, it returns [True] exactly when the local path
    is in the download set afterwards; after [True], any further fetch for
    that path, for whatever reference, is answered [True] at once and
    changes nothing. *)
Theorem fetch_answer_is_membership (env : Env) (fuel : nat) (url sp : string)
  (pf : option string) (w : World) (b : bool) (w' : World) :
  download_file env fuel url sp pf w = Returned b w' ->
  (b = true <-> sp ∈ downloaded_files w')
  /\ (b = true ->
      forall fuel' url' pf', download_file env fuel' url' sp pf' w' = Returned true w').
Proof.
  intros Hd.
  assert (Hiff : b = true <-> sp ∈ downloaded_files w').
  { revert Hd. rewrite download_file_unfold.
    destruct (decide (sp ∈ downloaded_files w)) as [Hin|Hnew].
    { unfold download_file_with. rewrite bool_decide_eq_true_2 by exact Hin.
      intros H; inversion H; subst. tauto. }
    rewrite download_file_with_new by exact Hnew.
    pose proof (retry_loop_same_store env 3 (seq 0 3) (full_url (base_url w) url pf) w)
      as Hs. unfold post in Hs.
    destruct (retry_loop env 3 (seq 0 3) (full_url (base_url w) url pf) w)
      as [response w1|w1|w1]; simpl in Hs; destruct Hs as (_ & _ & Hset & _);
      [| intros H; inversion H; subst; rewrite Hset; split; [discriminate | tauto]
       | discriminate].
    destruct (PyStr.truthy (OsPath.dirname sp) &&
              can_write env (fs w1) (OsPath.dirname sp) sp);
      [| intros H; inversion H; subst; rewrite Hset; split; [discriminate | tauto]].
    destruct (PyStr.endswith url ".json").
    - pose proof (download_file_process env fuel sp (stored sp response w1)) as [Hk _].
      pose proof (download_file_process_no_raise env fuel sp (stored sp response w1)) as Hn.
      destruct (match fuel with
                | O => fun _ => out_of_fuel
                | S fuel' => Walker.process_json_file env (download_file env fuel')
                end sp (stored sp response w1)) as [[] w4|w4|w4];
        simpl in Hk, Hn; [|contradiction|discriminate].
      intros H; inversion H; subst. split; [intros _|reflexivity].
      apply Hk. unfold stored. simpl. apply elem_of_union_l, elem_of_singleton. reflexivity.
    - intros H; inversion H; subst. split; [intros _|reflexivity].
      unfold stored. simpl. apply elem_of_union_l, elem_of_singleton. reflexivity. }
  split; [exact Hiff|].
  intros Hb fuel' url' pf'. rewrite download_file_unfold. unfold download_file_with.
  rewrite bool_decide_eq_true_2 by (apply Hiff; exact Hb). reflexivity.
Qed.

(** On the scenario: the payload is fetched, so its path is recorded. *)
Lemma fetch_answer_is_membership_witness :
  "downloaded_tiles/Data/Tile_1/foo.b3dm"
  ∈ downloaded_files
      (stored "downloaded_tiles/Data/Tile_1/foo.b3dm" "b3dm-bytes"
         (log (EvGet (Scenario.base ++ "/Data/Tile_1/foo.b3dm")) Scenario.started)).
Proof.
  apply (proj1 (fetch_answer_is_membership Scenario.env 0 "foo.b3dm"
                  "downloaded_tiles/Data/Tile_1/foo.b3dm" (Some "Tile_1") Scenario.started
                  true _ ltac:(vm_compute; reflexivity))).
  reflexivity.
Defined.

(** A payload is saved as it was received: when the fetch of a reference
    that does not end with [.json], for a path that was not recorded,
    returns [True], the retry loop has returned a response, the file at
    the path holds that response byte for byte, the path has joined the
    download set, and the events of the fetch are those of the retry loop
    followed by the one write. *)
Theorem payload_is_saved_as_received (env : Env) (fuel : nat) (url sp : string)
  (pf : option string) (w w' : World) :
  sp ∉ downloaded_files w ->
  PyStr.endswith url ".json" = false ->
  download_file env fuel url sp pf w = Returned true w' ->
  exists response w1,
    retry_loop env 3 (seq 0 3) (full_url (base_url w) url pf) w = Returned response w1
    /\ fs w' !! sp = Some response
    /\ downloaded_files w' = ({[sp]} ∪ downloaded_files w)
    /\ trace w' = (trace w1 ++ [EvWrite sp])%list.
Proof.
  intros Hnew Hj. rewrite download_file_unfold.
  rewrite download_file_with_new by exact Hnew. rewrite Hj.
  pose proof (retry_loop_same_store env 3 (seq 0 3) (full_url (base_url w) url pf) w) as Hs.
  unfold post in Hs.
  destruct (retry_loop env 3 (seq 0 3) (full_url (base_url w) url pf) w)
    as [response w1|w1|w1]; [|discriminate|discriminate].
  simpl in Hs. destruct Hs as (_ & _ & Hset & _).
  destruct (PyStr.truthy (OsPath.dirname sp) &&
            can_write env (fs w1) (OsPath.dirname sp) sp); [|discriminate].
  intros H; inversion H; subst. exists response, w1.
  split; [reflexivity|]. unfold stored. simpl.
  split; [apply lookup_insert_eq|]. split; [rewrite Hset|]; reflexivity.
Qed.

(** On the scenario: the payload of the nested manifest. *)
Lemma payload_is_saved_as_received_witness :
  exists response w1,
    retry_loop Scenario.env 3 (seq 0 3)
      (full_url (base_url Scenario.started) "foo.b3dm" (Some "Tile_1"))
      Scenario.started = Returned response w1
    /\ fs (stored "downloaded_tiles/Data/Tile_1/foo.b3dm" "b3dm-bytes"
             (log (EvGet (Scenario.base ++ "/Data/Tile_1/foo.b3dm")) Scenario.started))
         !! "downloaded_tiles/Data/Tile_1/foo.b3dm" = Some response
    /\ downloaded_files
         (stored "downloaded_tiles/Data/Tile_1/foo.b3dm" "b3dm-bytes"
            (log (EvGet (Scenario.base ++ "/Data/Tile_1/foo.b3dm")) Scenario.started))
       = ({[ "downloaded_tiles/Data/Tile_1/foo.b3dm" ]} ∪ downloaded_files Scenario.started)
    /\ trace
         (stored "downloaded_tiles/Data/Tile_1/foo.b3dm" "b3dm-bytes"
            (log (EvGet (Scenario.base ++ "/Data/Tile_1/foo.b3dm")) Scenario.started))
       = (trace w1 ++ [EvWrite "downloaded_tiles/Data/Tile_1/foo.b3dm"])%list.
Proof.
  refine (payload_is_saved_as_received Scenario.env 0 "foo.b3dm"
            "downloaded_tiles/Data/Tile_1/foo.b3dm" (Some "Tile_1") Scenario.started _
            _ _ _).
  - simpl. set_solver.
  - reflexivity.
  - vm_compute. reflexivity.
Defined.

(* ===================================================================== *)
(** ** Fetches that fail on the local side *)
(* ===================================================================== *)

(** When the response has arrived but the directory cannot be made or the
    file cannot be written, [download_file] answers [False] without
    another request or pause (its events are those of the retry loop), and
    the path is not recorded: a later fetch for it, for whatever
    reference, goes to the server again. *)
Theorem write_failure_is_not_retried (env : Env) (fuel : nat) (url sp : string)
  (pf : option string) (w : World) (response : string) (w1 : World) :
  sp ∉ downloaded_files w ->
  retry_loop env 3 (seq 0 3) (full_url (base_url w) url pf) w = Returned response w1 ->
  PyStr.truthy (OsPath.dirname sp) && can_write env (fs w1) (OsPath.dirname sp) sp = false ->
  exists w',
    download_file env fuel url sp pf w = Returned false w'
    /\ trace w' = trace w1
    /\ downloaded_files w' = downloaded_files w
    /\ (sp ∉ downloaded_files w')
    /\ (forall fuel' url' pf',
           exists later,
             trace (final (download_file env fuel' url' sp pf' w'))
             = (trace w' ++ EvGet (full_url (base_url w') url' pf') :: later)%list).
Proof.
  intros Hnew Hget Hwrite.
  pose proof (retry_loop_same_store env 3 (seq 0 3) (full_url (base_url w) url pf) w) as Hs.
  unfold post in Hs. rewrite Hget in Hs. simpl in Hs. destruct Hs as (_ & _ & Hset & _).
  assert (Hnew1 : sp ∉ downloaded_files w1) by (rewrite Hset; exact Hnew).
  exists w1. split.
  { rewrite download_file_unfold, download_file_with_new by exact Hnew.
    rewrite Hget, Hwrite. reflexivity. }
  split; [reflexivity|]. split; [exact Hset|]. split; [exact Hnew1|].
  intros fuel' url' pf'.
  destruct (download_file_first_get env fuel' url' sp pf' w1 Hnew1) as [later Hl].
  exists later. rewrite Hl. simpl. rewrite <- app_assoc. reflexivity.
Qed.

(** A server that answers, a file system that refuses every write. *)
Lemma write_failure_is_not_retried_witness :
  exists w',
    download_file
      {| http_get := Scenario.server; json_load := Scenario.parse;
         can_write := fun _ _ _ => false |}
      1 "foo.b3dm" "downloaded_tiles/Data/Tile_1/foo.b3dm" (Some "Tile_1") Scenario.started
    = Returned false w'
    /\ trace w' = [EvGet (Scenario.base ++ "/Data/Tile_1/foo.b3dm")]
    /\ "downloaded_tiles/Data/Tile_1/foo.b3dm" ∉ downloaded_files w'.
Proof.
  destruct (write_failure_is_not_retried
              {| http_get := Scenario.server; json_load := Scenario.parse;
                 can_write := fun _ _ _ => false |}
              1 "foo.b3dm" "downloaded_tiles/Data/Tile_1/foo.b3dm" (Some "Tile_1")
              Scenario.started "b3dm-bytes"
              (log (EvGet (Scenario.base ++ "/Data/Tile_1/foo.b3dm")) Scenario.started))
    as (w' & Hd & Ht & _ & Hn & _).
  - simpl. set_solver.
  - vm_compute. reflexivity.
  - reflexivity.
  - exists w'. split; [exact Hd|]. split; [exact Ht | exact Hn].
Defined.

Lemma head_no_slash p : PyStr.contains p "/" = false -> OsPath.head p = EmptyString.
Proof.
  destruct p as [|a p]; [reflexivity|].
  rewrite contains_slash_cons. intros H. apply orb_false_iff in H as [Ha Hp].
  cbn [OsPath.head]. rewrite Hp, Ha. reflexivity.
Qed.

(** A save path without a directory part can never be fetched:
    [os.makedirs('')] raises, so [download_file] answers [False] whatever
    the server sends; it has made its requests, but it has written and
    recorded nothing. *)
Theorem path_without_directory_fails (env : Env) (fuel : nat) (url sp : string)
  (pf : option string) (w : World) :
  sp ∉ downloaded_files w ->
  PyStr.contains sp "/" = false ->
  exists w', download_file env fuel url sp pf w = Returned false w' /\ same_store w w'.
Proof.
  intros Hnew Hno.
  assert (Hdir : OsPath.dirname sp = EmptyString).
  { unfold OsPath.dirname. rewrite (head_no_slash sp Hno). reflexivity. }
  pose proof (retry_loop_same_store env 3 (seq 0 3) (full_url (base_url w) url pf) w) as Hs.
  unfold post in Hs.
  pose proof (retry_loop_never_out_of_fuel env 3 (seq 0 3) (full_url (base_url w) url pf) w)
    as Hf.
  rewrite download_file_unfold, download_file_with_new by exact Hnew.
  destruct (retry_loop env 3 (seq 0 3) (full_url (base_url w) url pf) w)
    as [response w1|w1|w1]; simpl in Hs.
  - rewrite Hdir. simpl. exists w1. split; [reflexivity | exact Hs].
  - exists w1. split; [reflexivity | exact Hs].
  - exfalso. exact (Hf w1 eq_refl).
Qed.

(** [download_file('foo.b3dm', 'foo.b3dm')]: the server has the file, the
    fetch fails all the same. *)
Lemma path_without_directory_fails_witness :
  exists w',
    download_file Scenario.env 1 "foo.b3dm" "foo.b3dm" (Some "Tile_1") Scenario.started
    = Returned false w' /\ same_store Scenario.started w'.
Proof.
  apply path_without_directory_fails.
  - simpl. set_solver.
  - reflexivity.
Defined.

(* ===================================================================== *)
(** ** The order of the walk *)
(* ===================================================================== *)

Lemma bind_congr {A B} (m1 m2 : M A) (k1 k2 : A -> M B) w :
  m1 w = m2 w -> (forall a w1, k1 a w1 = k2 a w1) -> (m1 ≫= k1) w = (m2 ≫= k2) w.
Proof.
  intros Hm Hk. unfold mbind, M_bind. rewrite Hm. destruct (m2 w); auto.
Qed.

Lemma bind_unit_ret (m : M unit) w : (m ≫= fun _ => mret tt) w = m w.
Proof.
  unfold mbind, M_bind. destruct (m w) as [[] w1|w1|w1]; reflexivity.
Qed.

Lemma for_each_app {X} (body : X -> M unit) (a b : list X) w :
  for_each body (a ++ b)%list w = (for_each body a ≫= fun _ => for_each body b) w.
Proof.
  revert w. induction a as [|x a IH]; intros w; [reflexivity|].
  simpl. unfold mbind, M_bind. destruct (body x w) as [[] w1|w1|w1]; try reflexivity.
  apply IH.
Qed.

Lemma for_each_concat {X Y} (f : X -> M unit) (g : Y -> M unit)
  (xs : list X) (yss : list (list Y)) :
  Forall2 (fun x ys => forall w, f x w = for_each g ys w) xs yss ->
  forall w, for_each f xs w = for_each g (concat yss) w.
Proof.
  intros H. induction H as [|x ys xs yss Hx _ IH]; intros w; [reflexivity|].
  simpl. rewrite for_each_app. apply bind_congr; [apply Hx | intros _ w1; apply IH].
Qed.

Lemma assoc_py_in_false key members :
  Json.assoc key members = None -> Json.py_in key (JObj members) = Some false.
Proof.
  intros H. simpl. rewrite H.
  rewrite bool_decide_eq_false_2; [reflexivity|]. intros [x Hx]. discriminate Hx.
Qed.

(** The content half on a tile. *)
Lemma visit_content_tile fetch node own bp pf w :
  node_reference node = Some own ->
  Walker.visit_content fetch node bp pf w = for_each (fetch_reference fetch bp pf) own w.
Proof.
  destruct node as [| | | | | members]; try discriminate. simpl node_reference.
  destruct (Json.assoc "content" members) as [content|] eqn:Hc.
  - destruct content as [| | | | | c]; try discriminate.
    destruct (Json.assoc "url" c) as [u|] eqn:Hu.
    + destruct u as [| | | url | |]; try discriminate.
      intros H; inversion H; subst own.
      unfold Walker.visit_content. unfold_monad.
      rewrite (py_getitem_in (JObj members) "content" (JObj c) Hc). cbv beta iota.
      change (Json.py_getitem (JObj members) "content") with (Json.assoc "content" members).
      rewrite Hc. cbv beta iota.
      rewrite (py_getitem_in (JObj c) "url" (JStr url) Hu). cbv beta iota.
      change (Json.py_getitem (JObj c) "url") with (Json.assoc "url" c).
      rewrite Hu. cbv beta iota.
      unfold fetch_reference, for_each. unfold_monad.
      destruct (Walker.local_path url bp pf w) as [lp w1|w1|w1]; try reflexivity.
      destruct (fetch url lp (Some pf) w1) as [b w2|w2|w2]; reflexivity.
    + intros H; inversion H; subst own.
      unfold Walker.visit_content. unfold_monad.
      rewrite (py_getitem_in (JObj members) "content" (JObj c) Hc). cbv beta iota.
      change (Json.py_getitem (JObj members) "content") with (Json.assoc "content" members).
      rewrite Hc. cbv beta iota.
      rewrite (assoc_py_in_false "url" c Hu). reflexivity.
  - intros H; inversion H; subst own.
    unfold Walker.visit_content. unfold_monad.
    rewrite (assoc_py_in_false "content" members Hc). reflexivity.
Qed.

(** The children half on a tile. *)
Lemma visit_children_tile fetch node children bp pf w :
  node_children node = Some children ->
  Walker.visit_children fetch node bp pf w
  = for_each (fun child => Walker.extract_urls_from_node fetch child bp pf) children w
  /\ (children <> [] -> Walker.children_of node = Some children).
Proof.
  destruct node as [| | | | | members]; try discriminate. simpl node_children.
  destruct (Json.assoc "children" members) as [v|] eqn:Hc.
  - destruct v as [| | | | items |]; try discriminate.
    intros H; inversion H; subst children.
    assert (Hk : Walker.children_of (JObj members) = Some items).
    { unfold Walker.children_of. simpl. rewrite Hc. reflexivity. }
    split; [|intros _; exact Hk].
    unfold Walker.visit_children. unfold_monad.
    rewrite (py_getitem_in (JObj members) "children" (JArr items) Hc). cbv beta iota.
    rewrite Hk. reflexivity.
  - intros H; inversion H; subst children. split; [|intros Hne; contradiction].
    unfold Walker.visit_children. unfold_monad.
    rewrite (assoc_py_in_false "children" members Hc). reflexivity.
Qed.

(** On a tree of tiles the walk is the sequence of the fetches of its
    references, in pre-order. *)
Lemma walk_preorder fetch bp pf node :
  forall refs,
    tile_refs node refs ->
    forall w,
      Walker.extract_urls_from_node fetch node bp pf w
      = for_each (fetch_reference fetch bp pf) refs w.
Proof.
  induction node as [node IH] using walker_ind.
  intros refs Ht w. inversion Ht as [node' own children below Hown Hkids Hbelow]; subst.
  rewrite extract_urls_from_node_eq, for_each_app.
  apply bind_congr; [apply visit_content_tile; exact Hown|].
  intros _ w1.
  destruct (visit_children_tile fetch node children bp pf w1 Hkids) as [Hv Hk].
  rewrite Hv. apply for_each_concat.
  destruct children as [|c cs].
  - inversion Hbelow. constructor.
  - specialize (IH (c :: cs) (Hk ltac:(discriminate))).
    clear Hv Hk Hkids Ht. revert IH.
    induction Hbelow as [|x ys xs yss Hx _ IHb]; intros IH; constructor.
    + inversion IH as [|? ? Hp _]; subst. intros w2. apply Hp. exact Hx.
    + apply IHb. inversion IH; assumption.
Qed.

(** The walk of a well-formed tree of tiles fetches its references in
    pre-order, each with the base path and parent folder of the walk: the
    reference of a tile before the subtrees of its children, the children
    in their order, nothing else, and an exception or an exhausted budget
    at one reference ends the walk there. *)
Theorem walk_is_preorder (env : Env) (fuel : nat) (node : json) (refs : list string)
  (base_path parent_folder : string) (w : World) :
  tile_refs node refs ->
  extract_urls_from_node env fuel node base_path parent_folder w
  = for_each (fetch_reference (download_file env fuel) base_path parent_folder) refs w.
Proof.
  intros Ht. unfold extract_urls_from_node. apply walk_preorder. exact Ht.
Qed.

Lemma scenario_root_refs :
  tile_refs scenario_root
    ["Data/Tile_1/Tile_1.json"; "top.b3dm"; "Data/Tile_1/Tile_1.json"].
Proof.
  apply (tile_refs_node scenario_root ["Data/Tile_1/Tile_1.json"] scenario_children
           [["top.b3dm"]; ["Data/Tile_1/Tile_1.json"]]); [reflexivity | reflexivity |].
  repeat constructor.
  - apply (tile_refs_node _ ["top.b3dm"] [] []); [reflexivity | reflexivity | constructor].
  - apply (tile_refs_node _ ["Data/Tile_1/Tile_1.json"] [] []);
      [reflexivity | reflexivity | constructor].
Qed.

(** The root tile of the scenario: the nested manifest, the payload of the
    first child, the nested manifest again. *)
Lemma walk_is_preorder_witness :
  extract_urls_from_node Scenario.env 1 scenario_root "downloaded_tiles" "" Scenario.started
  = for_each (fetch_reference (download_file Scenario.env 1) "downloaded_tiles" "")
      ["Data/Tile_1/Tile_1.json"; "top.b3dm"; "Data/Tile_1/Tile_1.json"] Scenario.started.
Proof.
  apply walk_is_preorder. exact scenario_root_refs.
Defined.

(* ===================================================================== *)
(** ** Nodes and documents with keys missing *)
(* ===================================================================== *)

(** Nothing is fetched for what is not there: a tile without [content]
    and without [children], a tile whose content has no [url] (a [uri],
    say), and a manifest without [root] all leave the world as it is. *)
Theorem missing_keys_fetch_nothing (env : Env) (fuel : nat) (w : World) :
  (forall members base_path parent_folder,
      Json.assoc "content" members = None ->
      Json.assoc "children" members = None ->
      extract_urls_from_node env fuel (JObj members) base_path parent_folder w
      = Returned tt w)
  /\ (forall members content base_path parent_folder,
         Json.assoc "content" members = Some (JObj content) ->
         Json.assoc "url" content = None ->
         Json.assoc "children" members = None ->
         extract_urls_from_node env fuel (JObj members) base_path parent_folder w
         = Returned tt w)
  /\ (forall json_path text members,
         fs w !! json_path = Some text ->
         json_load env text = Some (JObj members) ->
         Json.assoc "root" members = None ->
         process_json_file env fuel json_path w = Returned tt w).
Proof.
  assert (H1 : forall members bp pf,
             Json.assoc "content" members = None ->
             Json.assoc "children" members = None ->
             extract_urls_from_node env fuel (JObj members) bp pf w = Returned tt w).
  { intros members bp pf Hc Hk. unfold extract_urls_from_node.
    rewrite (walk_preorder _ bp pf (JObj members) []); [reflexivity|].
    apply (tile_refs_node (JObj members) [] [] []); simpl.
    - rewrite Hc. reflexivity.
    - rewrite Hk. reflexivity.
    - constructor. }
  split; [exact H1|]. split.
  - intros members content bp pf Hc Hu Hk. unfold extract_urls_from_node.
    rewrite (walk_preorder _ bp pf (JObj members) []); [reflexivity|].
    apply (tile_refs_node (JObj members) [] [] []); simpl.
    + rewrite Hc, Hu. reflexivity.
    + rewrite Hk. reflexivity.
    + constructor.
  - intros json_path text members Hf Hj Hr.
    unfold process_json_file, Walker.process_json_file, read_file. unfold_monad.
    rewrite Hf. cbv beta iota. rewrite Hj. cbv beta iota.
    unfold Json.py_get. rewrite Hr. cbv beta iota.
    pose proof (H1 [] (OsPath.dirname json_path)
                  (OsPath.basename (OsPath.dirname json_path)) eq_refl eq_refl) as He.
    unfold extract_urls_from_node in He. rewrite He. reflexivity.
Qed.

(** A tile with a bounding volume and a content that names its file by
    [uri]. *)
Lemma missing_keys_fetch_nothing_witness :
  extract_urls_from_node Scenario.env 1
    (JObj [("boundingVolume", JNull); ("content", JObj [("uri", JStr "foo.b3dm")])])
    "downloaded_tiles" "" Scenario.started
  = Returned tt Scenario.started.
Proof.
  apply (proj1 (proj2 (missing_keys_fetch_nothing Scenario.env 1 Scenario.started))
           _ [("uri", JStr "foo.b3dm")]); reflexivity.
Defined.

(* ===================================================================== *)
(** ** Nodes that are not tiles *)
(* ===================================================================== *)




(* ===================================================================== *)
(** ** References to what is already there *)
(* ===================================================================== *)

Lemma fetch_recorded_reference env fuel bp pf u w :
  recorded_reference bp pf w u ->
  fetch_reference (download_file env fuel) bp pf u w = Returned tt w.
Proof.
  intros [lp [Hl Hin]]. unfold fetch_reference. unfold_monad. rewrite Hl.
  rewrite download_file_unfold. unfold download_file_with.
  rewrite bool_decide_eq_true_2 by exact Hin. reflexivity.
Qed.

Lemma fetch_recorded_references env fuel bp pf refs w :
  Forall (recorded_reference bp pf w) refs ->
  for_each (fetch_reference (download_file env fuel) bp pf) refs w = Returned tt w.
Proof.
  intros H. induction H as [|u rest Hu _ IH]; [reflexivity|].
  cbn [for_each]. unfold mbind, M_bind.
  rewrite (fetch_recorded_reference env fuel bp pf u w Hu). exact IH.
Qed.

(** A tree of tiles whose references all resolve to recorded paths is
    walked without any request or write; hence the fetch of a nested
    manifest whose references are all recorded once the manifest itself
    is, answers [True] right after its own write: a manifest that refers
    to itself, or to manifests fetched before, does not make the
    downloader loop. *)
Theorem recorded_references_cost_nothing (env : Env) (fuel : nat) :
  (forall node refs base_path parent_folder w,
      tile_refs node refs ->
      Forall (recorded_reference base_path parent_folder w) refs ->
      extract_urls_from_node env fuel node base_path parent_folder w = Returned tt w)
  /\ (forall url sp pf w response w1 data root refs,
         sp ∉ downloaded_files w ->
         PyStr.endswith url ".json" = true ->
         retry_loop env 3 (seq 0 3) (full_url (base_url w) url pf) w = Returned response w1 ->
         PyStr.truthy (OsPath.dirname sp) &&
           can_write env (fs w1) (OsPath.dirname sp) sp = true ->
         json_load env response = Some data ->
         Json.py_get data "root" (JObj []) = Some root ->
         tile_refs root refs ->
         Forall (recorded_reference (OsPath.dirname sp) (OsPath.basename (OsPath.dirname sp))
                   (stored sp response w1)) refs ->
         download_file env (S fuel) url sp pf w = Returned true (stored sp response w1)).
Proof.
  assert (H1 : forall node refs bp pf w,
             tile_refs node refs ->
             Forall (recorded_reference bp pf w) refs ->
             Walker.extract_urls_from_node (download_file env fuel) node bp pf w
             = Returned tt w).
  { intros node refs bp pf w Ht Hr.
    rewrite (walk_preorder _ bp pf node refs Ht). apply fetch_recorded_references, Hr. }
  split; [exact H1|].
  intros url sp pf w response w1 data root refs Hnew Hjson Hget Hwrite Hj Hroot Ht Hr.
  rewrite download_file_unfold.
  rewrite (download_file_manifest_step env url sp pf w response w1 Hnew Hjson Hget Hwrite).
  unfold Walker.process_json_file, read_file. unfold_monad.
  assert (Hf : fs (stored sp response w1) !! sp = Some response)
    by (unfold stored; simpl; apply lookup_insert_eq).
  rewrite Hf. cbv beta iota. rewrite Hj. cbv beta iota. rewrite Hroot. cbv beta iota.
  rewrite (H1 root refs _ _ _ Ht Hr). reflexivity.
Qed.

(** The manifest that refers to itself is fetched once. *)
Lemma recorded_references_cost_nothing_witness :
  download_file Loop.env 1 "Data/Loop/Loop.json" "downloaded_tiles/Data/Loop/Loop.json"
    (Some "") Scenario.started
  = Returned true
      (stored "downloaded_tiles/Data/Loop/Loop.json" (Json.dumps Loop.doc)
         (log (EvGet (Scenario.base ++ "/Data/Loop/Loop.json")) Scenario.started)).
Proof.
  refine (proj2 (recorded_references_cost_nothing Loop.env 0)
            "Data/Loop/Loop.json" "downloaded_tiles/Data/Loop/Loop.json" (Some "")
            Scenario.started (Json.dumps Loop.doc) _ Loop.doc
            (JObj [("content", JObj [("url", JStr "Data/Loop/Loop.json")])])
            ["Data/Loop/Loop.json"] _ _ _ _ _ _ _ _).
  - simpl. set_solver.
  - reflexivity.
  - vm_compute. reflexivity.
  - reflexivity.
  - reflexivity.
  - reflexivity.
  - apply (tile_refs_node _ ["Data/Loop/Loop.json"] [] []);
      [reflexivity | reflexivity | constructor].
  - constructor; [|constructor].
    exists "downloaded_tiles/Data/Loop/Loop.json". split; [reflexivity|].
    unfold stored. simpl. set_solver.
Defined.

(* ===================================================================== *)
(** ** The folder of a nested manifest *)
(* ===================================================================== *)

Lemma basename_past_slash a b :
  PyStr.contains b "/" = false -> OsPath.basename (a ++ "/" ++ b) = b.
Proof.
  intros Hb. induction a as [|x a IH].
  - change (EmptyString ++ "/" ++ b) with (String "/" b).
    cbn [OsPath.basename]. rewrite Hb. reflexivity.
  - rewrite str_app_cons. cbn [OsPath.basename].
    rewrite contains_slash_mid. exact IH.
Qed.

Lemma head_past_slash a b :
  PyStr.contains b "/" = false -> OsPath.head (a ++ "/" ++ b) = a ++ "/".
Proof.
  intros Hb. induction a as [|x a IH].
  - change (EmptyString ++ "/" ++ b) with (String "/" b).
    cbn [OsPath.head]. rewrite Hb. reflexivity.
  - rewrite (str_app_cons x a ("/" ++ b)), (str_app_cons x a "/"). cbn [OsPath.head].
    rewrite contains_slash_mid, IH. reflexivity.
Qed.

Lemma all_slashes_end a :
  a <> EmptyString -> PyStr.all_char PyStr.slash a = true -> PyStr.endswith a "/" = true.
Proof.
  induction a as [|x a IH]; [contradiction|]. intros _ H.
  cbn [PyStr.all_char] in H. apply andb_true_iff in H as [Hx Ha].
  destruct a as [|y a].
  - cbn [PyStr.endswith String.eqb]. unfold PyStr.slash in Hx. rewrite Hx. reflexivity.
  - rewrite endswith_slash_cons by discriminate. apply IH; [discriminate | exact Ha].
Qed.

Lemma all_char_app c a b :
  PyStr.all_char c (a ++ b) = PyStr.all_char c a && PyStr.all_char c b.
Proof.
  induction a as [|x a IH]; [reflexivity|].
  rewrite str_app_cons. cbn [PyStr.all_char]. rewrite IH. apply andb_assoc.
Qed.

(** [dirname] undoes the join of a directory and a file name. *)
Lemma dirname_past_slash a b :
  a <> EmptyString ->
  PyStr.endswith a "/" = false ->
  PyStr.contains b "/" = false ->
  OsPath.dirname (a ++ "/" ++ b) = a.
Proof.
  intros Ha He Hb. unfold OsPath.dirname. rewrite (head_past_slash a b Hb).
  rewrite truthy_app_r by reflexivity.
  rewrite all_char_app.
  assert (Hall : PyStr.all_char PyStr.slash a = false).
  { destruct (PyStr.all_char PyStr.slash a) eqn:E; [|reflexivity].
    rewrite (all_slashes_end a Ha E) in He. discriminate He. }
  rewrite Hall. simpl. rewrite rstrip_app_slash. apply rstrip_fixed, He.
Qed.

(** [process_json_file] up to the walk, for a document with a root. *)
Lemma process_json_file_started env fetch p w text data root :
  fs w !! p = Some text ->
  json_load env text = Some data ->
  Json.py_get data "root" (JObj []) = Some root ->
  Walker.process_json_file env fetch p w =
  try_except
    (Walker.extract_urls_from_node fetch root (OsPath.dirname p)
       (OsPath.basename (OsPath.dirname p)))
    (mret tt) w.
Proof.
  intros Hf Hj Hr. unfold Walker.process_json_file, read_file. unfold_monad.
  cbv beta iota. rewrite Hf. cbv beta iota. rewrite Hj. cbv beta iota.
  rewrite Hr. reflexivity.
Qed.

(** A nested manifest is processed in the folder it was saved in: for the
    destination [outputRoot/Data/tileFolder/name] of rule A,
    [process_json_file] walks the root of the document with base path
    [outputRoot/Data/tileFolder] and parent folder [tileFolder]; when the
    root refers to a payload [r] (a reference that neither ends with
    [.json] nor begins with [/]), the processing is the fetch of [r] to
    [outputRoot/Data/tileFolder/r] with parent folder [tileFolder],
    followed by the walk of the children, and, unless that path is
    recorded already, its first event is the GET of
    [base/Data/tileFolder/r]. *)
Theorem nested_manifest_context (env : Env) (fuel : nat) (out tf url : string) :
  PyStr.truthy out = true ->
  PyStr.endswith out "/" = false ->
  PyStr.truthy tf = true ->
  PyStr.contains tf "/" = false ->
  let sp := OsPath.join out ["Data"; tf; OsPath.basename url] in
  let folder := out ++ "/Data/" ++ tf in
  OsPath.dirname sp = folder
  /\ OsPath.basename (OsPath.dirname sp) = tf
  /\ (forall w text data root,
         fs w !! sp = Some text ->
         json_load env text = Some data ->
         Json.py_get data "root" (JObj []) = Some root ->
         process_json_file env fuel sp w
         = try_except (extract_urls_from_node env fuel root folder tf) (mret tt) w)
  /\ (forall w text data root content r,
         fs w !! sp = Some text ->
         json_load env text = Some data ->
         Json.py_get data "root" (JObj []) = Some root ->
         Json.py_getitem root "content" = Some content ->
         Json.py_getitem content "url" = Some (JStr r) ->
         PyStr.endswith r ".json" = false ->
         PyStr.startswith r "/" = false ->
         process_json_file env fuel sp w
         = try_except
             (_ ← download_file env fuel r (folder ++ "/" ++ r) (Some tf);
              Walker.visit_children (download_file env fuel) root folder tf)
             (mret tt) w
         /\ (folder ++ "/" ++ r ∉ downloaded_files w ->
             exists later,
               trace (final (process_json_file env fuel sp w))
               = (trace w ++ EvGet (base_url w ++ "/Data/" ++ tf ++ "/" ++ r) :: later)%list)).
Proof.
  intros Ho Hoe Ht Htc sp folder.
  assert (Htne : tf <> EmptyString) by (destruct tf; [discriminate Ht | discriminate]).
  assert (Hsp : sp = folder ++ "/" ++ OsPath.basename url).
  { subst sp folder.
    etransitivity;
      [exact (join_data_folder out tf (OsPath.basename url) Ho Hoe Ht Htc
                (basename_no_slash url))|].
    rewrite !str_app_assoc. reflexivity. }
  assert (Hae : PyStr.endswith folder "/" = false).
  { subst folder. rewrite endswith_slash_app by (destruct tf; discriminate).
    rewrite endswith_slash_app by exact Htne. apply no_slash_endswith, Htc. }
  assert (Hane : folder <> EmptyString).
  { subst folder. destruct out; [discriminate Ho | discriminate]. }
  assert (Hdir : OsPath.dirname sp = folder).
  { rewrite Hsp. apply dirname_past_slash; [exact Hane | exact Hae | apply basename_no_slash]. }
  assert (Hbase : OsPath.basename (OsPath.dirname sp) = tf).
  { rewrite Hdir. subst folder. change ("/Data/" ++ tf) with ("/Data" ++ "/" ++ tf).
    rewrite <- str_app_assoc. apply basename_past_slash, Htc. }
  assert (Hwalk : forall w text data root,
             fs w !! sp = Some text ->
             json_load env text = Some data ->
             Json.py_get data "root" (JObj []) = Some root ->
             process_json_file env fuel sp w
             = try_except (extract_urls_from_node env fuel root folder tf) (mret tt) w).
  { intros w text data root Hf Hj Hr. unfold process_json_file.
    rewrite (process_json_file_started env _ sp w text data root Hf Hj Hr).
    rewrite Hbase, Hdir. reflexivity. }
  split; [exact Hdir|]. split; [exact Hbase|]. split; [exact Hwalk|].
  intros w text data root content r Hf Hj Hr Hc Hu Hrj Hrel.
  assert (Hl : Walker.local_path r folder tf w = Returned (folder ++ "/" ++ r) w).
  { unfold Walker.local_path. rewrite Hrj. unfold OsPath.join. simpl fold_left.
    rewrite join2_plain; [reflexivity | | exact Hae | exact Hrel].
    destruct folder; [contradiction | reflexivity]. }
  assert (Heq : extract_urls_from_node env fuel root folder tf w
                = (_ ← download_file env fuel r (folder ++ "/" ++ r) (Some tf);
                   Walker.visit_children (download_file env fuel) root folder tf) w).
  { unfold extract_urls_from_node. rewrite extract_urls_from_node_eq.
    unfold mbind at 1. unfold M_bind at 1.
    rewrite (visit_content_reference _ _ _ _ _ _ _ _ Hc Hu Hl).
    unfold mbind, M_bind, mret, M_ret.
    destruct (download_file env fuel r (folder ++ "/" ++ r) (Some tf) w); reflexivity. }
  split.
  { rewrite (Hwalk w text data root Hf Hj Hr). apply try_except_ext. exact Heq. }
  intros Hnew.
  assert (Hk : forall u lp pf w1, post (extends w1) (download_file env fuel u lp pf w1)).
  { intros. apply download_file_post; intros; try apply extends_log.
    etransitivity; [|apply extends_log]. exists []. simpl.
    rewrite app_nil_r. reflexivity. }
  assert (Hext : post (extends (log (EvGet (base_url w ++ "/Data/" ++ tf ++ "/" ++ r)) w))
                   (process_json_file env fuel sp w)).
  { rewrite (Hwalk w text data root Hf Hj Hr).
    apply post_try_from; [|intros; apply post_ret].
    rewrite Heq.
    apply post_bind_from; [|intros; apply visit_children_post; exact Hk].
    replace (base_url w ++ "/Data/" ++ tf ++ "/" ++ r)
      with (full_url (base_url w) r (Some tf))
      by (unfold full_url; simpl opt_truthy; rewrite Ht; reflexivity).
    apply download_file_first_get. exact Hnew. }
  destruct Hext as [later Hlater]. exists later. rewrite Hlater.
  simpl. rewrite <- app_assoc. reflexivity.
Qed.

(** The nested manifest of the scenario and its payload. *)
Lemma nested_manifest_context_witness :
  exists later,
    trace (final (process_json_file Scenario.env 0
                    (OsPath.join "downloaded_tiles"
                       ["Data"; "Tile_1"; OsPath.basename "Data/Tile_1/Tile_1.json"])
                    scenario_nested))
    = (trace scenario_nested
         ++ EvGet (base_url scenario_nested ++ "/Data/" ++ "Tile_1" ++ "/" ++ "foo.b3dm")
         :: later)%list.
Proof.
  refine (proj2 (proj2 (proj2 (proj2
            (nested_manifest_context Scenario.env 0 "downloaded_tiles" "Tile_1"
               "Data/Tile_1/Tile_1.json" eq_refl eq_refl eq_refl eq_refl)))
            scenario_nested (Json.dumps Scenario.tile_doc) Scenario.tile_doc
            (JObj [("content", JObj [("url", JStr "foo.b3dm")])])
            (JObj [("url", JStr "foo.b3dm")]) "foo.b3dm" _ _ _ _ _ _ _) _).
  - vm_compute. reflexivity.
  - reflexivity.
  - reflexivity.
  - reflexivity.
  - reflexivity.
  - reflexivity.
  - reflexivity.
  - simpl. set_solver.
Defined.

(* ===================================================================== *)
(** ** Where the requests go *)
(* ===================================================================== *)

Lemma startswith_app b z : PyStr.startswith (b ++ z) b = true.
Proof.
  induction b as [|x b IH]; [destruct z; reflexivity|].
  rewrite str_app_cons. cbn [PyStr.startswith]. rewrite Ascii.eqb_refl. exact IH.
Qed.

Lemma full_url_under base url pf :
  PyStr.startswith (full_url base url pf) (base ++ "/") = true.
Proof.
  unfold full_url.
  destruct (opt_truthy pf); [|destruct (PyStr.startswith url "Data/")].
  - change ("/Data/" ++ default "" pf ++ "/" ++ url)
      with ("/" ++ "Data/" ++ default "" pf ++ "/" ++ url).
    rewrite <- str_app_assoc. apply startswith_app.
  - rewrite <- str_app_assoc. apply startswith_app.
  - rewrite <- str_app_assoc. apply startswith_app.
Qed.

Lemma requested_app t1 t2 :
  requested (t1 ++ t2)%list = (requested t1 ++ requested t2)%list.
Proof.
  induction t1 as [|e t1 IH]; simpl; [reflexivity|].
  destruct e; simpl; rewrite IH; reflexivity.
Qed.

Lemma requests_under_get b u w :
  PyStr.startswith u (b ++ "/") = true ->
  requests_under b w -> requests_under b (log (EvGet u) w).
Proof.
  intros Hu [Hb Hr]. split; [exact Hb|]. simpl. rewrite requested_app. simpl.
  apply Forall_app. split; [exact Hr | repeat constructor; exact Hu].
Qed.

Lemma requests_under_quiet b e w :
  requested [e] = [] ->
  requests_under b w -> requests_under b (log e w).
Proof.
  intros He [Hb Hr]. split; [exact Hb|]. simpl. rewrite requested_app, He, app_nil_r.
  exact Hr.
Qed.

Lemma retry_loop_requests_under env b n retries u :
  PyStr.startswith u (b ++ "/") = true ->
  forall w, requests_under b w ->
            ends false (requests_under b) (retry_loop env n retries u w).
Proof.
  intros Hu. induction retries as [|retry rest IH]; intros w Hw; [exact Hw|].
  rewrite retry_loop_cons. apply ends_try.
  - unfold get. apply ends_lift. apply requests_under_get; assumption.
  - intros w1 Hw1. destruct (retry =? n - 1)%nat; [exact Hw1|].
    apply ends_bind; [|intros _ w2 Hw2; apply IH; exact Hw2].
    simpl. apply requests_under_quiet; [reflexivity | exact Hw1].
Qed.

Lemma download_file_requests_under env b fuel :
  forall url sp pf w,
    requests_under b w ->
    ends false (requests_under b) (download_file env fuel url sp pf w).
Proof.
  induction fuel as [|fuel IH]; intros url sp pf w Hw;
    rewrite download_file_unfold; unfold download_file_with;
    (case_bool_decide; [exact Hw|]);
    (apply ends_try; [|intros w1 Hw1; exact Hw1]);
    (apply ends_bind;
     [apply retry_loop_requests_under;
      [destruct Hw as [<- _]; apply full_url_under | exact Hw]|]);
    intros response w1 Hw1;
    (apply ends_bind;
     [unfold write_file;
      destruct (PyStr.truthy (OsPath.dirname sp) &&
                can_write env (fs w1) (OsPath.dirname sp) sp); simpl;
      [apply (requests_under_quiet b (EvWrite sp) (put_file sp response w1) eq_refl);
       exact Hw1 | exact Hw1]|]);
    intros _ w2 Hw2;
    (apply ends_bind; [exact Hw2|]); intros _ w3 Hw3;
    (apply ends_bind; [|intros _ w4 Hw4; exact Hw4]);
    (destruct (PyStr.endswith url ".json"); [|exact Hw3]).
  - exact Hw3.
  - apply process_json_file_ends; [|exact Hw3].
    intros url' lp' w' Hw' _. apply IH. exact Hw'.
Qed.

(** The downloader only asks for what lies under its base: every URL it
    requests starts with the stored base URL followed by [/], whatever
    the manifests refer to; so every request of [main] starts with the
    base URL of [main]. *)
Theorem requests_stay_under_base (env : Env) (fuel : nat) :
  (forall url sp pf w,
      requests_under (base_url w) w ->
      requests_under (base_url w) (final (download_file env fuel url sp pf w)))
  /\ (forall tileset_path base_path w,
         requests_under (base_url w) w ->
         requests_under (base_url w)
           (final (process_tileset env fuel tileset_path base_path w)))
  /\ (forall files,
         Forall (fun u => PyStr.startswith u "http://data1.mars3d.cn/3dtiles/qx-simiao/" = true)
           (requested (trace (final (main env fuel files))))).
Proof.
  assert (Hfinal : forall (o : Outcome bool) b, ends false (requests_under b) o ->
                                               requests_under b (final o))
    by (intros o b; destruct o; simpl; auto).
  assert (Hfinal' : forall (o : Outcome unit) b, ends false (requests_under b) o ->
                                                requests_under b (final o))
    by (intros o b; destruct o; simpl; auto).
  assert (Ht : forall tp bp w,
             requests_under (base_url w) w ->
             requests_under (base_url w) (final (process_tileset env fuel tp bp w))).
  { intros tp bp w Hw. apply Hfinal'.
    unfold process_tileset, Walker.process_tileset.
    apply ends_bind; [exact Hw|]. intros _ w0 Hw0.
    apply ends_try; [|intros w1 Hw1; exact Hw1].
    apply ends_bind; [unfold read_file; apply ends_lift; exact Hw0|]. intros text w1 Hw1.
    apply ends_bind; [apply ends_lift; exact Hw1|]. intros data w2 Hw2.
    apply ends_bind.
    { unfold write_file.
      destruct (PyStr.truthy bp && can_write env (fs w2) bp _); simpl; [|exact Hw2].
      apply (requests_under_quiet _ (EvCopy _) (put_file _ _ w2) eq_refl). exact Hw2. }
    intros _ w3 Hw3.
    apply ends_bind; [apply ends_lift; exact Hw3|]. intros root w4 Hw4.
    apply extract_urls_from_node_ends; [|exact Hw4].
    intros url lp w5 Hw5 _. apply download_file_requests_under. exact Hw5. }
  split; [|split; [exact Ht|]].
  - intros url sp pf w Hw. apply Hfinal, download_file_requests_under, Hw.
  - intros files.
    apply (Ht "tileset.json" "downloaded_tiles"
             (init "http://data1.mars3d.cn/3dtiles/qx-simiao" files)).
    split; [reflexivity | constructor].
Qed.

(** The requests of the run of the scenario. *)
Lemma requests_stay_under_base_witness :
  requests_under (base_url Scenario.start)
    (final (process_tileset Scenario.env 1 "tileset.json" "downloaded_tiles" Scenario.start)).
Proof.
  apply (proj1 (proj2 (requests_stay_under_base Scenario.env 1))).
  split; [reflexivity | constructor].
Defined.

(* ===================================================================== *)
(** ** The configuration of a downloader *)
(* ===================================================================== *)

#[global] Instance same_config_preorder : PreOrder same_config.
Proof.
  split.
  - intros w. split; reflexivity.
  - intros a b c [H1 H2] [G1 G2]. split; congruence.
Qed.

Lemma download_file_same_config env fuel url sp pf w :
  post (same_config w) (download_file env fuel url sp pf w).
Proof.
  apply download_file_post; intros; split; reflexivity.
Qed.

(** Fetching and walking never change the base URL or the output
    directory; [process_tileset] sets the output directory to its
    argument before anything else, and that is the directory every nested
    manifest of the run is filed under, however the run ends. *)
Theorem configuration_is_kept (env : Env) (fuel : nat) :
  (forall url sp pf w, post (same_config w) (download_file env fuel url sp pf w))
  /\ (forall node base_path parent_folder w,
         post (same_config w)
           (extract_urls_from_node env fuel node base_path parent_folder w))
  /\ (forall json_path w, post (same_config w) (process_json_file env fuel json_path w))
  /\ (forall tileset_path base_path w,
         base_url (final (process_tileset env fuel tileset_path base_path w)) = base_url w
         /\ output_dir (final (process_tileset env fuel tileset_path base_path w))
            = Some base_path).
Proof.
  split; [intros; apply download_file_same_config|].
  split; [intros; unfold extract_urls_from_node; apply extract_urls_from_node_post;
          intros; apply download_file_same_config|].
  split; [intros; unfold process_json_file; apply process_json_file_post;
          intros; apply download_file_same_config|].
  intros tp bp w.
  assert (H : post (same_config (set_output_dir bp w)) (process_tileset env fuel tp bp w)).
  { unfold process_tileset, Walker.process_tileset.
    unfold mbind at 1. unfold M_bind at 1. unfold modify at 1.
    apply post_try; [|intros; apply post_ret].
    apply post_bind; [unfold read_file; apply post_lift|]. intros text w1 _.
    apply post_bind; [apply post_lift|]. intros data w2 _.
    apply post_bind.
    { unfold write_file, post.
      destruct (PyStr.truthy bp && can_write env (fs w2) bp _); simpl;
        split; reflexivity. }
    intros _ w3 _.
    apply post_bind; [apply post_lift|]. intros root w4 _.
    apply extract_urls_from_node_post. intros. apply download_file_same_config. }
  destruct H as [H1 H2]. split; [exact H1 | exact H2].
Qed.
